(** * fix_adk_logs_patch.py: the log-symlink patcher

    A shallow embedding of [my_agent/fix_adk_logs_patch.py].  The script
    locates [google/adk/cli/utils/logs.py] in the running interpreter's
    installation, reads it, and rewrites the single call
    [os.symlink(log_filepath, latest_log_link)] into a try/except block
    with a copy fallback, after writing a timestamped backup.

    Modelling choices:
    - a Python [str] is a [string]; [sub in s] and [s.replace(old, new, 1)]
      are the functions [contains] and [replace1] below;
    - a [pathlib.Path] is the list of its parts, [p / x] appends a part;
    - the file system is a finite map from paths to the text of the
      regular file stored there, the text being what [read_text] returns
      and [write_text] is given; writes succeed;
    - the script body is a computation in a small monad that threads the
      world (files, console, write log) and stops at [sys.exit];
    - the installation prefix, the site-packages directories and the clock
      are inputs of the run. *)

From Stdlib Require Import Ascii ZArith.
From stdpp Require Import base option list strings gmap.

Local Open Scope stdpp_scope.

(* Concatenation of strings unfolds on constructors, as for lists. *)
#[local] Arguments String.append !_ _ / : simpl nomatch.

(** ** Python strings *)

Module PyStr.

(** [s.startswith(p)] *)
Fixpoint starts_with (p s : string) : bool :=
  match p, s with
  | EmptyString, _ => true
  | String _ _, EmptyString => false
  | String c p', String d s' => if Ascii.eqb c d then starts_with p' s' else false
  end.

(** [s[n:]] *)
Fixpoint drop (n : nat) (s : string) : string :=
  match n, s with
  | O, _ => s
  | S _, EmptyString => EmptyString
  | S n', String _ s' => drop n' s'
  end.

(** [sub in s]: some position of [s] starts with [sub]. *)
Fixpoint contains (sub s : string) : bool :=
  starts_with sub s ||
  match s with
  | EmptyString => false
  | String _ s' => contains sub s'
  end.

(** [s.replace(old, new, 1)]: the leftmost occurrence of [old] is replaced
    by [new]; a string without occurrence is returned as it is. *)
Fixpoint replace1 (old new s : string) : string :=
  if starts_with old s then new +:+ drop (String.length old) s
  else match s with
       | EmptyString => EmptyString
       | String c s' => String c (replace1 old new s')
       end.

(** Character membership, used for the separators that a pattern
    cannot cross. *)
Fixpoint has_char (c : ascii) (s : string) : bool :=
  match s with
  | EmptyString => false
  | String d s' => Ascii.eqb c d || has_char c s'
  end.

(** Some non-empty suffix of [w] is a prefix of [t]: an occurrence of [w]
    can end inside a text that starts with [t]. *)
Fixpoint bridges (w t : string) : bool :=
  match w with
  | EmptyString => false
  | String _ w' => starts_with w t || bridges w' t
  end.

(** [s = a +:+ w +:+ b] with no occurrence of [w] starting before [a] ends. *)
Definition first_occurrence (w s a b : string) : Prop :=
  s = a +:+ w +:+ b /\
  forall a' b', s = a' +:+ w +:+ b' -> String.length a <= String.length a'.

End PyStr.

(** ** The standard-library calls the script makes *)

Module PyLib.
Import PyStr.

(** *** pathlib *)

(** A path is the list of its parts; [p / x] appends one part. *)
Definition path : Type := list string.

Definition joinpath (p : path) (x : string) : path := p ++ [x].
Infix "//" := joinpath (at level 40, left associativity).

(** [p.name]: the last part. *)
Definition name (p : path) : string := List.last p "".

(** [p.parent]: all parts but the last. *)
Definition parent (p : path) : path := List.removelast p.

(** [str(p)], written with forward slashes. *)
Definition path_str (p : path) : string := String.concat "/" p.

(** [s[:n]] *)
Fixpoint take (n : nat) (s : string) : string :=
  match n, s with
  | O, _ => EmptyString
  | S _, EmptyString => EmptyString
  | S n', String c s' => String c (take n' s')
  end.

(** [s.rfind(".")], with [None] for -1. *)
Fixpoint rfind_dot (s : string) : option nat :=
  match s with
  | EmptyString => None
  | String c s' =>
      match rfind_dot s' with
      | Some i => Some (S i)
      | None => if Ascii.eqb c "." then Some 0 else None
      end
  end.

(** [p.suffix]: the last dot of the name and what follows it, unless the
    dot is the first or the last character. *)
Definition suffix (p : path) : string :=
  let nm := name p in
  match rfind_dot nm with
  | Some i => if (0 <? i) && (i <? String.length nm - 1) then drop i nm else ""
  | None => ""
  end.

(** [p.with_suffix(sfx)]; [None] stands for the [ValueError] raised on a
    suffix with a separator, a suffix that does not start with a dot or is
    only a dot, and a path with an empty name. *)
Definition with_suffix (p : path) (sfx : string) : option path :=
  if has_char "/" sfx || has_char "\" sfx then None
  else if negb (String.eqb sfx "") && negb (starts_with "." sfx) then None
  else if String.eqb sfx "." then None
  else
    let nm := name p in
    if String.eqb nm "" then None
    else
      let old_suffix := suffix p in
      let nm' :=
        if String.eqb old_suffix "" then nm +:+ sfx
        else take (String.length nm - String.length old_suffix) nm +:+ sfx in
      Some (parent p // nm').

(** *** datetime *)

Record datetime : Type := Datetime {
  year : Z; month : Z; day : Z;
  hour : Z; minute : Z; second : Z
}.

(** The fields of a [datetime] object are in range, and the clock of a
    running system shows a four-digit year. *)
Definition valid_datetime (d : datetime) : Prop :=
  (1000 <= year d <= 9999 /\ 1 <= month d <= 12 /\ 1 <= day d <= 31 /\
   0 <= hour d <= 23 /\ 0 <= minute d <= 59 /\ 0 <= second d <= 59)%Z.

Definition digit (n : Z) : ascii := ascii_of_nat (Z.to_nat (48 + n mod 10)).

(** Decimal digits of [n], most significant first, in front of [acc]. *)
Fixpoint decimal_go (fuel : nat) (n : Z) (acc : string) : string :=
  match fuel with
  | O => acc
  | S fuel' =>
      let acc' := String (digit n) acc in
      if (n / 10 =? 0)%Z then acc' else decimal_go fuel' (n / 10) acc'
  end.

(** [str(n)] for a natural number [n]. *)
Definition decimal (n : Z) : string := decimal_go (S (Z.to_nat n)) n "".

Fixpoint zeros (k : nat) : string :=
  match k with
  | O => EmptyString
  | S k' => String "0" (zeros k')
  end.

(** [s.zfill(width)] for a string of digits. *)
Definition zfill (width : nat) (s : string) : string :=
  zeros (width - String.length s) +:+ s.

(** One [strftime] directive: [%Y] is the year in decimal, [%m %d %H %M %S]
    are padded with a zero to two digits. *)
Definition directive (c : ascii) (d : datetime) : string :=
  if Ascii.eqb c "Y" then decimal (year d)
  else if Ascii.eqb c "m" then zfill 2 (decimal (month d))
  else if Ascii.eqb c "d" then zfill 2 (decimal (day d))
  else if Ascii.eqb c "H" then zfill 2 (decimal (hour d))
  else if Ascii.eqb c "M" then zfill 2 (decimal (minute d))
  else if Ascii.eqb c "S" then zfill 2 (decimal (second d))
  else String "%" (String c "").

(** [d.strftime(fmt)] *)
Fixpoint strftime (fmt : string) (d : datetime) : string :=
  match fmt with
  | EmptyString => EmptyString
  | String c rest =>
      if Ascii.eqb c "%" then
        match rest with
        | EmptyString => String c EmptyString
        | String k rest' => directive k d +:+ strftime rest' d
        end
      else String c (strftime rest d)
  end.

End PyLib.

(** ** The script *)

Module Patcher.
Import PyStr PyLib.

(** *** The world the script runs in *)

Record world : Type := World {
  files : gmap path string;        (* regular files and their text *)
  console : list string;           (* lines printed so far *)
  written : list (path * string)   (* every [write_text], oldest first *)
}.

(** A run either goes on with a value or has left the interpreter with an
    exit status ([sys.exit], or an exception nobody catches: status 1). *)
Inductive outcome (A : Type) : Type :=
  | Done (a : A)
  | Exited (status : Z).
Arguments Done {A} a.
Arguments Exited {A} status.

Definition script (A : Type) : Type := world -> outcome A * world.

#[global] Instance script_ret : MRet script := fun A a w => (Done a, w).

#[global] Instance script_bind : MBind script := fun A B f m w =>
  match m w with
  | (Done a, w') => f a w'
  | (Exited n, w') => (Exited n, w')
  end.

Definition sys_exit {A : Type} (status : Z) : script A :=
  fun w => (Exited status, w).

(** [print(a, b, ...)]: the arguments separated by one space. *)
Definition print (args : list string) : script unit :=
  fun w => (Done tt,
            {| files := files w;
               console := console w ++ [String.concat " " args];
               written := written w |}).

Definition path_exists (p : path) : script bool :=
  fun w => (Done (bool_decide (is_Some (files w !! p))), w).

(** [p.read_text(encoding="utf-8")]; a missing file raises. *)
Definition read_text (p : path) : script string :=
  fun w => match files w !! p with
           | Some text => (Done text, w)
           | None => (Exited 1, w)
           end.

(** [p.write_text(text, encoding="utf-8")] creates or overwrites [p]. *)
Definition write_text (p : path) (text : string) : script unit :=
  fun w => (Done tt,
            {| files := <[p := text]> (files w);
               console := console w;
               written := written w ++ [(p, text)] |}).

(** The process environment of one invocation. *)
Record env : Type := Env {
  sys_prefix : path;               (* sys.prefix *)
  getsitepackages : list path;     (* site.getsitepackages() *)
  getusersitepackages : path;      (* site.getusersitepackages() *)
  now : datetime                   (* datetime.datetime.now() *)
}.

(** The exit status of the process: 0 when the script runs to its end. *)
Definition exit_status {A : Type} (r : outcome A * world) : Z :=
  match fst r with
  | Done _ => 0
  | Exited n => n
  end.

(** *** The literals of the script *)

Definition LF : string := String (ascii_of_nat 10) "".

Definition marker : string := "fallback to copying the log file".

Definition import_shutil : string := "import shutil".

Definition import_os_line : string := "import os" +:+ LF.

Definition import_os_shutil_lines : string :=
  "import os" +:+ LF +:+ "import shutil" +:+ LF.

Definition old_call : string := "os.symlink(log_filepath, latest_log_link)".

Definition new_block : string :=
  "try:" +:+ LF +:+
  "        if os.path.exists(latest_log_link):" +:+ LF +:+
  "            os.remove(latest_log_link)" +:+ LF +:+
  "        os.symlink(log_filepath, latest_log_link)" +:+ LF +:+
  "    except OSError:" +:+ LF +:+
  "        # Windows: creating symlinks requires a privilege; fall back to copying the file." +:+ LF +:+
  "        try:" +:+ LF +:+
  "            shutil.copy2(log_filepath, latest_log_link)" +:+ LF +:+
  "        except Exception:" +:+ LF +:+
  "            # Last resort: ignore copying failure to avoid crashing the CLI." +:+ LF +:+
  "            pass" +:+ LF.

(** The lines of [new_block] after [try:], without the last line break. *)
Definition new_block_body : string :=
  take (String.length new_block - 6) (drop 5 new_block).

(** *** Locating the target *)

(** [Path(p) / "google" / "adk" / "cli" / "utils" / "logs.py"] *)
Definition logs_py_in (p : path) : path :=
  p // "google" // "adk" // "cli" // "utils" // "logs.py".

(** The [for ... break] loop over the site-packages directories: the first
    candidate that exists replaces [target]. *)
Fixpoint first_candidate (dirs : list path) (target : path) : script path :=
  match dirs with
  | [] => mret target
  | p :: rest =>
      let candidate := logs_py_in p in
      found ← path_exists candidate;
      if found : bool then mret candidate else first_candidate rest target
  end.

Definition locate (e : env) : script path :=
  let target := logs_py_in (sys_prefix e // "Lib" // "site-packages") in
  found ← path_exists target;
  target ← (if negb found
            then first_candidate
                   (getsitepackages e ++ [getusersitepackages e]) target
            else mret target);
  print ["Target file:"; path_str target];;
  mret target.

(** *** Validating and applying the patch *)

(** The import step: [orig] is rebound to the text with [import shutil]
    added after the first [import os] line when the text has no
    [import shutil]. *)
Definition ensure_import (orig : string) : string :=
  if negb (contains import_shutil orig)
  then replace1 import_os_line import_os_shutil_lines orig
  else orig.

Definition apply_patch (e : env) (target : path) : script unit :=
  found ← path_exists target;
  (if negb found
   then print ["Could not find logs.py at the expected location. Please open the file path from the traceback and pass it here."];;
        sys_exit 1
   else mret tt);;
  orig ← read_text target;
  (if contains marker orig
   then print ["Patch appears to already be applied. No changes made."];;
        sys_exit 0
   else mret tt);;
  let orig := ensure_import orig in
  (if negb (contains old_call orig)
   then print ["Could not find the os.symlink call pattern. Please open the file and apply manually. Exiting."];;
        sys_exit 1
   else mret tt);;
  let new := replace1 old_call new_block orig in
  let stamp := strftime "%Y%m%d_%H%M%S" (now e) in
  backup ← match with_suffix target (suffix target +:+ ".bak_" +:+ stamp) with
           | Some b => mret b
           | None => sys_exit 1
           end;
  print ["Writing backup to: " +:+ path_str backup];;
  write_text backup orig;;
  write_text target new;;
  print ["Patched logs.py successfully. Please inspect the backup and the modified file before re-running your command."];;
  print ["If you prefer not to modify site-packages, consider running the adk command with Administrator privileges or enable Windows Developer Mode."].

Definition main (e : env) : script unit :=
  target ← locate e;
  apply_patch e target.

End Patcher.

(** ** The properties the runs are checked against *)

Module Props.
Import PyStr PyLib Patcher.

(** The path of the backup of [t] at the clock of [e]: next to [t], under
    the name of [t] followed by [.bak_] and the stamp. *)
Abbreviation backup_of e t :=
  (parent t // (name t +:+ ".bak_" +:+ strftime "%Y%m%d_%H%M%S" (now e))).

(** *** The layout of the time stamp *)

Definition two_digits (n : Z) : string :=
  String (digit (n / 10)) (String (digit n) "").

Definition four_digits (n : Z) : string :=
  String (digit (n / 1000)) (String (digit (n / 100))
    (String (digit (n / 10)) (String (digit n) ""))).

(** [YYYYMMDD_HHMMSS]: eight digits of the date, an underscore, six digits
    of the time of day. *)
Definition YYYYMMDD_HHMMSS (d : datetime) : string :=
  four_digits (year d) +:+ two_digits (month d) +:+ two_digits (day d) +:+
  "_" +:+
  two_digits (hour d) +:+ two_digits (minute d) +:+ two_digits (second d).

(** *** The transformation, step by step *)

(** [mid] is [orig] with the line [import shutil] put right after the
    first line break that ends an [import os]. *)
Definition import_added (orig mid : string) : Prop :=
  exists p q,
    first_occurrence import_os_line orig p q /\
    mid = p +:+ import_os_line +:+ (import_shutil +:+ LF) +:+ q.

(** [new] is [mid] with the leftmost call replaced by the block. *)
Definition call_replaced (mid new : string) : Prop :=
  exists a b,
    first_occurrence old_call mid a b /\
    new = a +:+ new_block +:+ b.

(** The import step as the transformation postcondition words it: the
    import is added whenever the text has no [import shutil]. *)
Definition import_step_always (orig mid : string) : Prop :=
  if contains import_shutil orig then mid = orig else import_added orig mid.

(** The import step with the case of a text without [import os] line:
    nothing is added there. *)
Definition import_step_if_anchor (orig mid : string) : Prop :=
  if contains import_shutil orig then mid = orig
  else if contains import_os_line orig then import_added orig mid
  else mid = orig.

(** *** The frame of the transformation *)

(** [new] is [orig] except for the leftmost call, which became the block,
    and for at most one added line [import shutil], which stands after the
    leftmost [import os] line, before or after the call. *)
Inductive frame (orig new : string) : Prop :=
  | frame_call_only (a b : string) :
      first_occurrence old_call orig a b ->
      contains import_shutil orig = true \/
        contains import_os_line orig = false ->
      new = a +:+ new_block +:+ b ->
      frame orig new
  | frame_import_before_call (p a b : string) :
      contains import_shutil orig = false ->
      first_occurrence import_os_line orig p (a +:+ old_call +:+ b) ->
      first_occurrence old_call orig (p +:+ import_os_line +:+ a) b ->
      new = p +:+ import_os_line +:+ (import_shutil +:+ LF) +:+
            a +:+ new_block +:+ b ->
      frame orig new
  | frame_import_after_call (a b q : string) :
      contains import_shutil orig = false ->
      first_occurrence old_call orig a (b +:+ import_os_line +:+ q) ->
      first_occurrence import_os_line orig (a +:+ old_call +:+ b) q ->
      new = a +:+ new_block +:+ b +:+ import_os_line +:+
            (import_shutil +:+ LF) +:+ q ->
      frame orig new.

(** *** The block around its call *)

(** The lines of [new_block] in front of the call it keeps, with the
    indentation of the call, and what follows the call. *)
Definition block_before_call : string :=
  "try:" +:+ LF +:+
  "        if os.path.exists(latest_log_link):" +:+ LF +:+
  "            os.remove(latest_log_link)" +:+ LF +:+
  "        ".

Definition block_after_call : string :=
  LF +:+
  "    except OSError:" +:+ LF +:+
  "        # Windows: creating symlinks requires a privilege; fall back to copying the file." +:+ LF +:+
  "        try:" +:+ LF +:+
  "            shutil.copy2(log_filepath, latest_log_link)" +:+ LF +:+
  "        except Exception:" +:+ LF +:+
  "            # Last resort: ignore copying failure to avoid crashing the CLI." +:+ LF +:+
  "            pass" +:+ LF.

End Props.

(** ** Sample installations *)

Module Samples.
Import PyStr PyLib Patcher.

Definition morning : datetime :=
  {| year := 2025; month := 3; day := 7; hour := 9; minute := 5; second := 0 |}.

Definition a_minute_later : datetime :=
  {| year := 2025; month := 3; day := 7; hour := 9; minute := 6; second := 0 |}.

Definition install (clock : datetime) : env :=
  {| sys_prefix := ["C:"; "Python312"];
     getsitepackages := [["C:"; "Python312"];
                         ["C:"; "Python312"; "Lib"; "site-packages"]];
     getusersitepackages := ["C:"; "Users"; "dev"; "site-packages"];
     now := clock |}.

Definition logs_py : path :=
  logs_py_in (["C:"; "Python312"] // "Lib" // "site-packages").

(** A [logs.py] with the call and an [import os] line. *)
Definition unpatched_text : string :=
  "import os" +:+ LF +:+
  "import tempfile" +:+ LF +:+
  "def log_to_tmp_folder():" +:+ LF +:+
  "    os.symlink(log_filepath, latest_log_link)" +:+ LF.

(** A [logs.py] with the call whose [import os] shares its line. *)
Definition no_anchor_text : string :=
  "import os, tempfile" +:+ LF +:+
  "def log_to_tmp_folder():" +:+ LF +:+
  "    os.symlink(log_filepath, latest_log_link)" +:+ LF.

(** A [logs.py] that carries the marker. *)
Definition marked_text : string :=
  "import os" +:+ LF +:+
  "def log_to_tmp_folder():" +:+ LF +:+
  "    # fallback to copying the log file" +:+ LF +:+
  "    os.symlink(log_filepath, latest_log_link)" +:+ LF.

(** A [logs.py] that links in another way. *)
Definition refactored_text : string :=
  "import os" +:+ LF +:+
  "def log_to_tmp_folder():" +:+ LF +:+
  "    os.symlink(src=log_filepath, dst=latest_log_link)" +:+ LF.

Definition disk (text : string) : world :=
  {| files := {[ logs_py := text ]}; console := []; written := [] |}.

Definition empty_disk : world :=
  {| files := ∅; console := []; written := [] |}.

End Samples.

(** ** More sample installations *)

Module MoreSamples.
Import PyStr PyLib Patcher Samples.

(** A virtual environment without the package; the package sits in the
    second of the global site-packages directories. *)
Definition venv (clock : datetime) : env :=
  {| sys_prefix := ["opt"; "venv"];
     getsitepackages := [["usr"; "lib"];
                         ["C:"; "Python312"; "Lib"; "site-packages"]];
     getusersitepackages := ["home"; "dev"];
     now := clock |}.

(** A [logs.py] that has both imports already. *)
Definition both_imports_text : string :=
  "import os" +:+ LF +:+
  "import shutil" +:+ LF +:+
  "def log_to_tmp_folder():" +:+ LF +:+
  "    os.symlink(log_filepath, latest_log_link)" +:+ LF.

(** A disk with the target and a file of another package. *)
Definition disk_with_neighbour (text : string) : world :=
  {| files := {[ logs_py := text; ["C:"; "notes.txt"] := "keep" ]};
     console := []; written := [] |}.

Definition one_second_later : datetime :=
  {| year := 2025; month := 3; day := 7; hour := 9; minute := 5; second := 1 |}.

End MoreSamples.

(** ** Facts about string search and replacement *)

Module PyStrFacts.
Import PyStr.

(** *** Concatenation *)

Lemma str_app_nil_r (s : string) : s +:+ "" = s.
Proof. induction s as [|c s IH]; simpl; [reflexivity | now rewrite IH]. Qed.

Lemma str_app_assoc (a b c : string) : (a +:+ b) +:+ c = a +:+ b +:+ c.
Proof. induction a as [|x a IH]; simpl; [reflexivity | now rewrite IH]. Qed.

Lemma str_length_app (a b : string) :
  String.length (a +:+ b) = String.length a + String.length b.
Proof. induction a as [|x a IH]; simpl; [reflexivity | now rewrite IH]. Qed.

Lemma str_app_inv_head (a b c : string) : a +:+ b = a +:+ c -> b = c.
Proof. induction a as [|x a IH]; simpl; intros H; [exact H | injection H; auto]. Qed.

(** Two ways of cutting the same string differ by a middle piece. *)
Lemma str_app_eq_app (a b c d : string) :
  a +:+ b = c +:+ d ->
  (exists e, c = a +:+ e /\ b = e +:+ d) \/
  (exists e, a = c +:+ e /\ d = e +:+ b).
Proof.
  revert c. induction a as [|x a IH]; intros c H; simpl in H.
  - left. exists c. split; [reflexivity | exact H].
  - destruct c as [|y c]; simpl in H.
    + right. exists (String x a). split; [reflexivity | now rewrite <- H].
    + injection H as -> H. destruct (IH _ H) as [[e [-> ->]] | [e [-> ->]]].
      * left. exists e. split; reflexivity.
      * right. exists e. split; reflexivity.
Qed.

Lemma str_app_eq_nil (a b : string) : a +:+ b = "" -> a = "" /\ b = "".
Proof. destruct a; simpl; intros H; [split; [reflexivity | exact H] | discriminate]. Qed.

(** *** Prefixes and occurrences *)

Lemma starts_with_app (p b : string) : starts_with p (p +:+ b) = true.
Proof.
  induction p as [|c p IH]; simpl; [reflexivity |].
  now rewrite Ascii.eqb_refl.
Qed.

Lemma starts_with_inv (p s : string) :
  starts_with p s = true -> exists b, s = p +:+ b.
Proof.
  revert s. induction p as [|c p IH]; intros s H; simpl in H.
  - exists s. reflexivity.
  - destruct s as [|d s]; [discriminate |].
    destruct (Ascii.eqb_spec c d) as [-> | _]; [| discriminate].
    destruct (IH _ H) as [b ->]. exists b. reflexivity.
Qed.

Lemma starts_with_iff (p s : string) :
  starts_with p s = true <-> exists b, s = p +:+ b.
Proof.
  split; [apply starts_with_inv | intros [b ->]; apply starts_with_app].
Qed.

Lemma drop_app (p b : string) : drop (String.length p) (p +:+ b) = b.
Proof. induction p as [|c p IH]; simpl; [reflexivity | exact IH]. Qed.

Lemma contains_here (w s : string) :
  starts_with w s = true -> contains w s = true.
Proof. destruct s; simpl; intros ->; reflexivity. Qed.

Lemma contains_app (a w b : string) : contains w (a +:+ w +:+ b) = true.
Proof.
  induction a as [|c a IH]; simpl.
  - apply contains_here, starts_with_app.
  - rewrite IH. apply orb_true_r.
Qed.

Lemma contains_inv (w s : string) :
  contains w s = true -> exists a b, s = a +:+ w +:+ b.
Proof.
  induction s as [|c s IH]; simpl; intros H.
  - rewrite orb_false_r in H. apply starts_with_inv in H as [b Hb].
    exists "", b. exact Hb.
  - apply orb_true_iff in H as [H | H].
    + apply starts_with_inv in H as [b Hb]. exists "", b. exact Hb.
    + destruct (IH H) as (a & b & ->). exists (String c a), b. reflexivity.
Qed.

Lemma contains_iff (w s : string) :
  contains w s = true <-> exists a b, s = a +:+ w +:+ b.
Proof.
  split; [apply contains_inv | intros (a & b & ->); apply contains_app].
Qed.

Lemma contains_false (w a b : string) :
  contains w (a +:+ w +:+ b) = false -> False.
Proof. rewrite contains_app. discriminate. Qed.

(** An occurrence inside a part is an occurrence inside the whole. *)
Lemma contains_mid (w l m r : string) :
  contains w m = true -> contains w (l +:+ m +:+ r) = true.
Proof.
  intros (a & b & ->)%contains_inv. apply contains_iff.
  exists (l +:+ a), (b +:+ r). now rewrite !str_app_assoc.
Qed.

Lemma contains_l (w l r : string) :
  contains w l = true -> contains w (l +:+ r) = true.
Proof.
  intros H. generalize (contains_mid w "" l r H). auto.
Qed.

Lemma contains_r (w l r : string) :
  contains w r = true -> contains w (l +:+ r) = true.
Proof.
  intros H. generalize (contains_mid w l r "" H). now rewrite str_app_nil_r.
Qed.

(** *** Replacing the leftmost occurrence *)

Lemma replace1_absent (old new s : string) :
  contains old s = false -> replace1 old new s = s.
Proof.
  induction s as [|c s IH]; simpl; intros H.
  - rewrite orb_false_r in H. now rewrite H.
  - apply orb_false_iff in H as [-> H]. now rewrite IH.
Qed.

Lemma replace1_first (old new s : string) :
  contains old s = true ->
  exists a b, first_occurrence old s a b /\
              replace1 old new s = a +:+ new +:+ b.
Proof.
  induction s as [|c s IH]; intros H.
  - simpl in H. rewrite orb_false_r in H.
    destruct (starts_with_inv _ _ H) as [b Hb].
    exists "", b. split; [split; [exact Hb | intros; simpl; lia] |].
    simpl. rewrite H. destruct (str_app_eq_nil _ _ (eq_sym Hb)) as [-> ->].
    reflexivity.
  - simpl in H. destruct (starts_with old (String c s)) eqn:Hs.
    + destruct (starts_with_inv _ _ Hs) as [b Hb].
      exists "", b. split; [split; [exact Hb | intros; simpl; lia] |].
      unfold replace1; fold replace1. rewrite Hs, Hb, drop_app. reflexivity.
    + simpl in H. destruct (IH H) as (a & b & [Heq Hmin] & Hr).
      exists (String c a), b. split; [split |].
      * simpl. now rewrite <- Heq.
      * intros [|d a'] b' E; simpl in E.
        -- rewrite E, starts_with_app in Hs. discriminate.
        -- injection E as _ E. simpl. apply le_n_S. eapply Hmin, E.
      * unfold replace1; fold replace1. rewrite Hs, Hr. reflexivity.
Qed.

(** The two cutting points of a leftmost occurrence are unique. *)
Lemma first_occurrence_unique (w s a b a' b' : string) :
  first_occurrence w s a b -> first_occurrence w s a' b' -> a = a' /\ b = b'.
Proof.
  intros [E Hm] [E' Hm'].
  assert (Hl : String.length a = String.length a').
  { apply Nat.le_antisymm; [eapply Hm, E' | eapply Hm', E]. }
  rewrite E in E'. clear - E' Hl.
  revert a' E' Hl. induction a as [|c a IH]; intros [|d a'] E Hl;
    simpl in *; try discriminate.
  - apply str_app_inv_head in E. auto.
  - injection E as -> E. destruct (IH a' E) as [-> ->]; [lia | auto].
Qed.

(** *** Separators and overlaps *)

Lemma has_char_app (c : ascii) (a b : string) :
  has_char c (a +:+ b) = has_char c a || has_char c b.
Proof.
  induction a as [|d a IH]; simpl; [reflexivity |].
  now rewrite IH, orb_assoc.
Qed.

Lemma has_char_mid (c : ascii) (a b : string) :
  has_char c (a +:+ String c b) = true.
Proof.
  rewrite has_char_app. simpl. rewrite Ascii.eqb_refl. apply orb_true_r.
Qed.

(** A pattern without the character [c] lies on one side of any [c]. *)
Lemma separator (c : ascii) (w x y a b : string) :
  has_char c w = false ->
  x +:+ String c y = a +:+ w +:+ b ->
  (exists e, x = a +:+ w +:+ e /\ b = e +:+ String c y) \/
  (exists e, a = x +:+ String c e /\ y = e +:+ w +:+ b).
Proof.
  intros Hc E.
  destruct (str_app_eq_app _ _ _ _ E) as [[e [-> E1]] | [e [-> E1]]].
  - destruct e as [|d e]; simpl in E1.
    + destruct w as [|d w]; simpl in E1.
      * left. exists "". subst b. rewrite !str_app_nil_r. auto.
      * injection E1 as <- _. simpl in Hc.
        rewrite Ascii.eqb_refl in Hc. discriminate.
    + injection E1 as <- E1. right. exists e. auto.
  - symmetry in E1.
    destruct (str_app_eq_app _ _ _ _ E1) as [[k [-> E2]] | [k [-> E2]]].
    + destruct k as [|d k]; simpl in E2.
      * left. exists "". rewrite !str_app_nil_r. auto.
      * injection E2 as -> E2. subst. rewrite has_char_mid in Hc.
        discriminate.
    + left. exists k. auto.
Qed.

Lemma bridges_intro (e k b : string) :
  k <> "" -> bridges (e +:+ k) (k +:+ b) = true.
Proof.
  intros Hk. induction e as [|c e IH]; simpl.
  - destruct k as [|d k]; [congruence |].
    change (starts_with (String d k) (String d k +:+ b) || bridges k (String d k +:+ b) = true).
    now rewrite starts_with_app.
  - rewrite IH. apply orb_true_r.
Qed.

(** An occurrence of [w] in [x +:+ t] lies in [x], or ends inside [t],
    or lies in [t]. *)
Lemma overlap (w x t a b : string) :
  x +:+ t = a +:+ w +:+ b ->
  (exists e, x = a +:+ w +:+ e) \/ bridges w t = true \/ contains w t = true.
Proof.
  intros E.
  destruct (str_app_eq_app _ _ _ _ E) as [[e [-> E1]] | [e [-> E1]]].
  - right; right. rewrite E1. apply contains_app.
  - symmetry in E1.
    destruct (str_app_eq_app _ _ _ _ E1) as [[k [-> E2]] | [k [-> E2]]].
    + destruct k as [|d k].
      * left. exists "". now rewrite !str_app_nil_r.
      * right; left. rewrite E2. now apply bridges_intro.
    + left. exists k. reflexivity.
Qed.

(** Lengths of concatenations, pushed down to the pieces. *)
Ltac len_norm :=
  repeat first [ rewrite str_length_app in * | progress simpl String.length in * ].

(** Searching across a separator the pattern does not have. *)
Lemma contains_sep (c : ascii) (w u v : string) :
  has_char c w = false ->
  contains w (u +:+ String c v) = contains w u || contains w v.
Proof.
  intros Hc. apply eq_true_iff_eq. rewrite orb_true_iff. split.
  - intros (a & b & E)%contains_inv.
    destruct (separator _ _ _ _ _ _ Hc E) as [[e [-> _]] | [e [_ ->]]].
    + left. apply contains_app.
    + right. apply contains_app.
  - intros [H | H].
    + now apply contains_l.
    + apply contains_r. change (contains w (String c "" +:+ v) = true).
      now apply contains_r.
Qed.

(** Searching across a junction the pattern cannot straddle. *)
Lemma contains_junction (w x t : string) :
  bridges w t = false -> contains w t = false ->
  contains w (x +:+ t) = contains w x.
Proof.
  intros Hb Ht. apply eq_true_iff_eq. split.
  - intros (a & b & E)%contains_inv.
    destruct (overlap _ _ _ _ _ E) as [[e ->] | [H | H]]; [| congruence ..].
    apply contains_app.
  - apply contains_l.
Qed.

Lemma contains_parts (w a m b : string) :
  contains w (a +:+ m +:+ b) = false ->
  contains w a = false /\ contains w m = false /\ contains w b = false.
Proof.
  intros H. repeat split; apply not_true_is_false; intros C.
  - apply (contains_l w a (m +:+ b)) in C. congruence.
  - apply (contains_mid w a m b) in C. congruence.
  - apply (contains_r w (a +:+ m) b) in C. rewrite str_app_assoc in C. congruence.
Qed.

(** A line [m] put after the separator at the end of [x] neither hides nor
    creates an occurrence of a pattern that fits in one line. *)
Lemma contains_insert_line (c : ascii) (w x m y : string) :
  has_char c w = false -> contains w m = false ->
  contains w (x +:+ String c (m +:+ String c y)) = contains w (x +:+ String c y).
Proof.
  intros Hc Hm. rewrite !(contains_sep c) by exact Hc. now rewrite Hm.
Qed.

(** The leftmost occurrence after the insertion of a line is the leftmost
    occurrence before it, on the same side of the inserted line. *)
Lemma first_occurrence_insert_line (c : ascii) (w x m y a1 b1 : string) :
  has_char c w = false -> contains w m = false ->
  first_occurrence w (x +:+ String c (m +:+ String c y)) a1 b1 ->
  (exists e, x = a1 +:+ w +:+ e /\ b1 = e +:+ String c (m +:+ String c y) /\
             first_occurrence w (x +:+ String c y) a1 (e +:+ String c y)) \/
  (exists e, a1 = x +:+ String c (m +:+ String c e) /\ y = e +:+ w +:+ b1 /\
             first_occurrence w (x +:+ String c y) (x +:+ String c e) b1).
Proof.
  intros Hc Hm [E Hmin].
  destruct (separator _ _ _ _ _ _ Hc E) as [[e [Hx Hb]] | [e [Ha Hy]]].
  - left. exists e. split; [exact Hx | split; [exact Hb |]]. split.
    + rewrite Hx, !str_app_assoc. reflexivity.
    + intros a' b' E'.
      destruct (separator _ _ _ _ _ _ Hc E') as [[k [Hx' Hb']] | [k [Ha' _]]].
      * apply (Hmin a' (k +:+ String c (m +:+ String c y))).
        rewrite Hx', !str_app_assoc. reflexivity.
      * rewrite Ha', Hx. len_norm. lia.
  - destruct (separator _ _ _ _ _ _ Hc Hy) as [[k [Hk _]] | [k [He Hy']]].
    { rewrite Hk, contains_app in Hm. discriminate. }
    right. exists k. split; [now rewrite Ha, He | split; [exact Hy' |]]. split.
    + rewrite Hy', !str_app_assoc. reflexivity.
    + intros a' b' E'.
      destruct (separator _ _ _ _ _ _ Hc E') as [[j [Hx' _]] | [j [Ha' Hj]]].
      * assert (L : String.length a1 <= String.length a').
        { apply (Hmin a' (j +:+ String c (m +:+ String c y))).
          rewrite Hx', !str_app_assoc. reflexivity. }
        rewrite Ha, Hx' in L. len_norm. lia.
      * assert (L : String.length a1 <=
                    String.length (x +:+ String c (m +:+ String c j))).
        { apply (Hmin _ b'). rewrite Hj, !str_app_assoc. simpl.
          rewrite !str_app_assoc. reflexivity. }
        rewrite Ha, He in L. rewrite Ha'. len_norm. lia.
Qed.

(** Nothing of a non-empty pattern lies before its leftmost occurrence. *)
Lemma first_occurrence_prefix_free (w s a b : string) :
  w <> "" -> first_occurrence w s a b -> contains w a = false.
Proof.
  intros Hw [E Hmin]. apply not_true_is_false. intros (a' & e & Ha)%contains_inv.
  assert (E2 : s = a' +:+ w +:+ (e +:+ w +:+ b))
    by (rewrite E, Ha, !str_app_assoc; reflexivity).
  apply Hmin in E2. rewrite Ha, !str_length_app in E2.
  destruct w; [congruence |]. simpl in E2. lia.
Qed.

(** The leftmost occurrence in a text is still the leftmost after a line
    without occurrence is put in front. *)
Lemma first_occurrence_skip_line (c : ascii) (w x y a b : string) :
  has_char c w = false -> contains w x = false ->
  first_occurrence w y a b ->
  first_occurrence w (x +:+ String c y) (x +:+ String c a) b.
Proof.
  intros Hc Hx [E Hmin]. split.
  - rewrite E, str_app_assoc. reflexivity.
  - intros a' b' E'.
    destruct (separator _ _ _ _ _ _ Hc E') as [[e [Hx' _]] | [e [-> Hy]]].
    + rewrite Hx', contains_app in Hx. discriminate.
    + specialize (Hmin _ _ Hy). rewrite !str_length_app. simpl. lia.
Qed.

(** A pattern right after a pad that lacks its first character occurs
    there first. *)
Lemma first_occurrence_here (c : ascii) (w' pad r : string) :
  has_char c pad = false ->
  first_occurrence (String c w') (pad +:+ String c w' +:+ r) pad r.
Proof.
  intros Hc. split; [reflexivity |]. intros a' b' E.
  destruct (str_app_eq_app _ _ _ _ E) as [[e [-> _]] | [e [Hp He]]].
  - rewrite str_length_app. lia.
  - destruct e as [|d e].
    + rewrite Hp, str_length_app. simpl. lia.
    + simpl in He. injection He as <- _.
      rewrite Hp, has_char_mid in Hc. discriminate.
Qed.

End PyStrFacts.

(** ** Facts about the texts the script handles *)

Module TextFacts.
Import PyStr PyLib Patcher PyStrFacts.

Abbreviation nl := (ascii_of_nat 10).

Lemma old_call_one_line : has_char nl old_call = false.
Proof. vm_compute. reflexivity. Qed.

Lemma marker_one_line : has_char nl marker = false.
Proof. vm_compute. reflexivity. Qed.

Lemma import_shutil_one_line : has_char nl import_shutil = false.
Proof. vm_compute. reflexivity. Qed.

Lemma new_block_cut : new_block = "try:" +:+ String nl (new_block_body +:+ LF).
Proof. vm_compute. reflexivity. Qed.

Lemma import_os_line_cut (p q : string) :
  p +:+ import_os_line +:+ q = (p +:+ "import os") +:+ String nl q.
Proof. rewrite str_app_assoc. reflexivity. Qed.

Lemma import_os_shutil_lines_cut (p q : string) :
  p +:+ import_os_shutil_lines +:+ q =
  (p +:+ "import os") +:+ String nl (import_shutil +:+ String nl q).
Proof. rewrite str_app_assoc. reflexivity. Qed.

Lemma new_block_in_context (a b : string) :
  a +:+ new_block +:+ b =
  (a +:+ "try:") +:+ String nl (new_block_body +:+ String nl b).
Proof.
  rewrite new_block_cut. unfold LF. rewrite !str_app_assoc. simpl.
  rewrite ?str_app_assoc. reflexivity.
Qed.

(** What the import step does to a text. *)
Lemma ensure_import_cases (orig : string) :
  (ensure_import orig = orig /\
   (contains import_shutil orig = true \/
    contains import_os_line orig = false)) \/
  (contains import_shutil orig = false /\
   exists p q, first_occurrence import_os_line orig p q /\
               ensure_import orig = p +:+ import_os_shutil_lines +:+ q).
Proof.
  unfold ensure_import. destruct (contains import_shutil orig) eqn:Hs; simpl.
  - left. auto.
  - destruct (contains import_os_line orig) eqn:Ha.
    + right. split; [reflexivity |].
      destruct (replace1_first _ import_os_shutil_lines _ Ha)
        as (p & q & Hf & Hr).
      exists p, q. auto.
    + left. split; [now apply replace1_absent | auto].
Qed.

(** The import step neither hides nor creates an occurrence of a one-line
    pattern that is not part of [import shutil]. *)
Lemma contains_ensure_import (w orig : string) :
  has_char nl w = false -> contains w import_shutil = false ->
  contains w (ensure_import orig) = contains w orig.
Proof.
  intros Hc Hm.
  destruct (ensure_import_cases orig)
    as [[-> _] | (_ & p & q & [E _] & ->)]; [reflexivity |].
  rewrite E, import_os_line_cut, import_os_shutil_lines_cut.
  now apply contains_insert_line.
Qed.

(** Searching a one-line pattern in a text where [new_block] was put. *)
Lemma contains_new_block (w a b : string) :
  has_char nl w = false ->
  bridges w "try:" = false -> contains w "try:" = false ->
  contains w (a +:+ new_block +:+ b) =
  contains w a || (contains w new_block_body || contains w b).
Proof.
  intros Hc Hb Ht.
  rewrite new_block_in_context, !(contains_sep nl) by exact Hc.
  now rewrite contains_junction.
Qed.

(** The written text of a run that patches: the call is still there, the
    marker is not. *)
Lemma patched_text (orig : string) :
  contains marker orig = false ->
  contains old_call (ensure_import orig) = true ->
  contains old_call (replace1 old_call new_block (ensure_import orig)) = true /\
  contains marker (replace1 old_call new_block (ensure_import orig)) = false.
Proof.
  intros Hm Hc.
  assert (Hm' : contains marker (ensure_import orig) = false).
  { rewrite contains_ensure_import; auto using marker_one_line. }
  destruct (replace1_first _ new_block _ Hc) as (a & b & [E _] & ->).
  split.
  - apply contains_mid. vm_compute. reflexivity.
  - rewrite E in Hm'. apply contains_parts in Hm' as (Ha & _ & Hb).
    rewrite contains_new_block, Ha, Hb; auto using marker_one_line.
Qed.

(** Patching makes the text longer. *)
Lemma patched_longer (mid : string) :
  contains old_call mid = true ->
  String.length mid < String.length (replace1 old_call new_block mid).
Proof.
  intros Hc.
  destruct (replace1_first _ new_block _ Hc) as (a & b & [E _] & ->).
  rewrite E, !str_length_app.
  change (String.length old_call) with 41.
  change (String.length new_block) with 437. lia.
Qed.

(** Rewriting a concatenation of the script's literals to a normal form. *)
Ltac str_eq :=
  unfold import_os_line, import_os_shutil_lines, LF;
  repeat first [ rewrite str_app_assoc | progress simpl ];
  reflexivity.

Lemma first_occurrence_eq (w s s' a a' b b' : string) :
  s = s' -> a = a' -> b = b' ->
  first_occurrence w s a b -> first_occurrence w s' a' b'.
Proof. intros -> -> ->. auto. Qed.

(** A call in front of an [import os] ends before the [import os] begins:
    the call ends with a bracket, which [import os] does not have. *)
Lemma call_clear_of_import_os (p a e : string) :
  p +:+ "import os" = a +:+ old_call +:+ e ->
  exists k, p = a +:+ old_call +:+ k /\ e = k +:+ "import os".
Proof.
  intros E.
  assert (E' : (a +:+ "os.symlink(log_filepath, latest_log_link") +:+
               String ")" e = p +:+ "import os" +:+ "").
  { rewrite str_app_nil_r, E. str_eq. }
  apply separator in E'; [| vm_compute; reflexivity].
  destruct E' as [[k [_ Hk]] | [k [Hp He]]].
  - destruct k; discriminate.
  - exists k. split.
    + rewrite Hp. str_eq.
    + rewrite He. now rewrite str_app_nil_r.
Qed.

(** The import step, in the words of [import_step_if_anchor]. *)
Lemma ensure_import_step (orig : string) :
  Props.import_step_if_anchor orig (ensure_import orig).
Proof.
  unfold Props.import_step_if_anchor, ensure_import.
  destruct (contains import_shutil orig); simpl; [reflexivity |].
  destruct (contains import_os_line orig) eqn:Ha.
  - destruct (replace1_first _ import_os_shutil_lines _ Ha)
      as (p & q & Hf & ->).
    exists p, q. split; [exact Hf | str_eq].
  - now apply replace1_absent.
Qed.

(** The frame of the two replacements together. *)
Lemma patch_frame (orig : string) :
  contains old_call (ensure_import orig) = true ->
  Props.frame orig (replace1 old_call new_block (ensure_import orig)).
Proof.
  intros Hc.
  destruct (replace1_first _ new_block _ Hc) as (a1 & b1 & Hf1 & ->).
  destruct (ensure_import_cases orig)
    as [[He Hno] | (Hs & p & q & [Eo Hmin] & He)]; rewrite He in Hf1.
  - now apply Props.frame_call_only with a1 b1.
  - rewrite import_os_shutil_lines_cut in Hf1.
    apply first_occurrence_insert_line in Hf1;
      [| apply old_call_one_line | vm_compute; reflexivity].
    destruct Hf1 as [(e & Hx & -> & Hf) | (e & -> & Hq & Hf)].
    + apply call_clear_of_import_os in Hx as (k & Hp & ->).
      apply Props.frame_import_after_call with a1 k q.
      * exact Hs.
      * eapply first_occurrence_eq; [| | | exact Hf];
          [rewrite Eo | |]; str_eq.
      * rewrite <- Hp. split; assumption.
      * str_eq.
    + apply Props.frame_import_before_call with p e b1.
      * exact Hs.
      * rewrite <- Hq. split; assumption.
      * eapply first_occurrence_eq; [| | | exact Hf];
          [rewrite Eo | |]; str_eq.
      * str_eq.
Qed.

(** The import step leaves a text as it is exactly when the text has
    [import shutil] or has no [import os] line. *)
Lemma ensure_import_fixed (orig : string) :
  ensure_import orig = orig <->
  contains import_shutil orig = true \/ contains import_os_line orig = false.
Proof.
  split.
  - intros He.
    destruct (ensure_import_cases orig)
      as [[_ H] | (_ & p & q & [Eo _] & E)]; [exact H |].
    rewrite He in E. apply (f_equal String.length) in E.
    rewrite Eo in E. rewrite !str_length_app in E. simpl in E. lia.
  - intros H. unfold ensure_import.
    destruct H as [-> | H]; [reflexivity |].
    destruct (contains import_shutil orig); simpl; [reflexivity |].
    now apply replace1_absent.
Qed.

(** The frame leaves no choice: a text has at most one patched text. *)
Lemma frame_functional (orig new new' : string) :
  Props.frame orig new -> Props.frame orig new' -> new = new'.
Proof.
  assert (Hanchor : forall p q,
            first_occurrence import_os_line orig p q ->
            contains import_shutil orig = false ->
            ~ (contains import_shutil orig = true \/
               contains import_os_line orig = false)).
  { intros p q [E _] Hs [H | H]; [congruence |].
    rewrite E, contains_app in H. discriminate. }
  intros [a b Hf Hc -> | p a b Hs Hfa Hfc -> | a b q Hs Hfc Hfa ->]
         [a' b' Hf' Hc' -> | p' a' b' Hs' Hfa' Hfc' -> | a' b' q' Hs' Hfc' Hfa' ->];
    try solve [exfalso; eapply Hanchor; eassumption].
  - destruct (first_occurrence_unique _ _ _ _ _ _ Hf Hf') as [-> ->].
    reflexivity.
  - destruct (first_occurrence_unique _ _ _ _ _ _ Hfa Hfa') as [-> _].
    destruct (first_occurrence_unique _ _ _ _ _ _ Hfc Hfc') as [Ea ->].
    do 2 apply str_app_inv_head in Ea. now subst.
  - destruct (first_occurrence_unique _ _ _ _ _ _ Hfa Hfa') as [Ep _].
    destruct (first_occurrence_unique _ _ _ _ _ _ Hfc Hfc') as [Ea _].
    apply (f_equal String.length) in Ep, Ea.
    rewrite !str_length_app in Ep, Ea.
    change (String.length import_os_line) with 10 in *. lia.
  - destruct (first_occurrence_unique _ _ _ _ _ _ Hfa Hfa') as [Ep _].
    destruct (first_occurrence_unique _ _ _ _ _ _ Hfc Hfc') as [Ea _].
    apply (f_equal String.length) in Ep, Ea.
    rewrite !str_length_app in Ep, Ea.
    change (String.length import_os_line) with 10 in *. lia.
  - destruct (first_occurrence_unique _ _ _ _ _ _ Hfc Hfc') as [-> _].
    destruct (first_occurrence_unique _ _ _ _ _ _ Hfa Hfa') as [Eb ->].
    do 2 apply str_app_inv_head in Eb. now subst.
Qed.

(** The block, cut at the call it keeps. *)
Lemma new_block_split :
  new_block = Props.block_before_call +:+ old_call +:+ Props.block_after_call.
Proof. vm_compute. reflexivity. Qed.

Ltac block_eq :=
  unfold new_block, Props.block_before_call, Props.block_after_call, old_call, LF;
  repeat first [ rewrite str_app_assoc | progress simpl ];
  reflexivity.

(** After the replacement the leftmost call of the text is the call of the
    block. *)
Lemma call_of_block_is_first (mid a b : string) :
  first_occurrence old_call mid a b ->
  first_occurrence old_call (a +:+ new_block +:+ b)
    (a +:+ Props.block_before_call) (Props.block_after_call +:+ b).
Proof.
  intros Hf.
  assert (Ha : contains old_call (a +:+ "try:") = false).
  { rewrite contains_junction by (vm_compute; reflexivity).
    eapply first_occurrence_prefix_free; [| exact Hf]. discriminate. }
  pose proof (first_occurrence_here "o"
                "s.symlink(log_filepath, latest_log_link)" "        "
                (Props.block_after_call +:+ b) eq_refl) as H0.
  pose proof (first_occurrence_skip_line nl old_call
                "            os.remove(latest_log_link)" _ _ _
                old_call_one_line eq_refl H0) as H1.
  pose proof (first_occurrence_skip_line nl old_call
                "        if os.path.exists(latest_log_link):" _ _ _
                old_call_one_line eq_refl H1) as H2.
  pose proof (first_occurrence_skip_line nl old_call (a +:+ "try:") _ _ _
                old_call_one_line Ha H2) as H3.
  eapply first_occurrence_eq; [| | | exact H3]; block_eq.
Qed.

End TextFacts.

(** ** Facts about paths and time stamps *)

Module LibFacts.
Import PyStr PyLib Patcher PyStrFacts.

Lemma name_joinpath (p : path) (x : string) : name (p // x) = x.
Proof. apply List.last_last. Qed.


Lemma digit_cases (n : Z) :
  In (digit n) ["0"; "1"; "2"; "3"; "4"; "5"; "6"; "7"; "8"; "9"]%char.
Proof.
  unfold digit. pose proof (Z.mod_pos_bound n 10 eq_refl) as Hr.
  remember (n mod 10)%Z as r eqn:Er. clear Er.
  assert (Hc : (r = 0 \/ r = 1 \/ r = 2 \/ r = 3 \/ r = 4 \/ r = 5 \/
                r = 6 \/ r = 7 \/ r = 8 \/ r = 9)%Z) by lia.
  repeat (destruct Hc as [-> | Hc]; [vm_compute; tauto |]).
  subst r. vm_compute. tauto.
Qed.

(** A character that is no digit does not occur in a number. *)
Section NoDigit.
Variable c : ascii.
Hypothesis c_no_digit : has_char c "0123456789" = false.

Lemma eqb_digit (n : Z) : Ascii.eqb c (digit n) = false.
Proof.
  pose proof (digit_cases n) as H. simpl in H, c_no_digit.
  repeat (apply orb_false_iff in c_no_digit as [? c_no_digit]).
  repeat (destruct H as [<- | H]; [assumption |]). destruct H.
Qed.

Lemma has_char_decimal_go (fuel : nat) (n : Z) (acc : string) :
  has_char c acc = false -> has_char c (decimal_go fuel n acc) = false.
Proof.
  revert n acc. induction fuel as [|fuel IH]; intros n acc Ha; simpl.
  - exact Ha.
  - assert (Ha' : has_char c (String (digit n) acc) = false).
    { simpl. now rewrite eqb_digit, Ha. }
    destruct (n / 10 =? 0)%Z; [exact Ha' | now apply IH].
Qed.

Lemma has_char_decimal (n : Z) : has_char c (decimal n) = false.
Proof. now apply has_char_decimal_go. Qed.

Lemma has_char_zeros (k : nat) : has_char c (zeros k) = false.
Proof.
  induction k as [|k IH]; simpl; [reflexivity |]. rewrite IH.
  simpl in c_no_digit. apply orb_false_iff in c_no_digit as [-> _].
  reflexivity.
Qed.

Lemma has_char_zfill (width : nat) (s : string) :
  has_char c s = false -> has_char c (zfill width s) = false.
Proof.
  intros Hs. unfold zfill. now rewrite has_char_app, has_char_zeros, Hs.
Qed.

Lemma has_char_stamp (d : datetime) :
  Ascii.eqb c "_" = false ->
  has_char c (strftime "%Y%m%d_%H%M%S" d) = false.
Proof.
  intros Hu. simpl. unfold directive. simpl.
  rewrite !has_char_app. simpl. rewrite !has_char_app.
  rewrite !has_char_zfill, has_char_decimal, Hu by apply has_char_decimal.
  reflexivity.
Qed.
End NoDigit.

(** The backup of a located file: [with_suffix] accepts the suffix and puts
    it after the whole name. *)
Lemma with_suffix_logs_py (p : path) (d : datetime) :
  with_suffix (logs_py_in p)
    (suffix (logs_py_in p) +:+ ".bak_" +:+ strftime "%Y%m%d_%H%M%S" d) =
  Some (parent (logs_py_in p) //
        (name (logs_py_in p) +:+ ".bak_" +:+ strftime "%Y%m%d_%H%M%S" d)).
Proof.
  assert (Hn : name (logs_py_in p) = "logs.py") by apply name_joinpath.
  unfold with_suffix, suffix. rewrite !Hn.
  set (stamp := strftime _ d).
  assert (H1 : has_char "/" stamp = false) by (now apply has_char_stamp).
  assert (H2 : has_char "\" stamp = false) by (now apply has_char_stamp).
  simpl. rewrite H1, H2. reflexivity.
Qed.

End LibFacts.

(** ** Facts about a run *)

Module RunFacts.
Import PyStr PyLib Patcher PyStrFacts TextFacts LibFacts.

Lemma path_exists_eq (p : path) (w : world) :
  path_exists p w =
  (Done (match files w !! p with Some _ => true | None => false end), w).
Proof.
  unfold path_exists. destruct (files w !! p) eqn:E; reflexivity.
Qed.

(** The loop reads the file system and changes nothing; it returns the
    first candidate that exists, or [target] when there is none. *)
Lemma first_candidate_spec (dirs : list path) (target : path) (w : world) :
  exists t,
    first_candidate dirs target w = (Done t, w) /\
    ((t = target /\ Forall (fun p => files w !! logs_py_in p = None) dirs) \/
     (is_Some (files w !! t) /\ exists p, In p dirs /\ t = logs_py_in p)).
Proof.
  induction dirs as [|p dirs IH]; simpl.
  - exists target. split; [reflexivity | left; auto].
  - unfold mbind, script_bind. rewrite path_exists_eq.
    destruct (files w !! logs_py_in p) eqn:E.
    + exists (logs_py_in p). split; [reflexivity |]. right. split.
      * rewrite E. eauto.
      * exists p. auto.
    + destruct IH as (t & -> & Ht). exists t. split; [reflexivity |].
      destruct Ht as [[-> Hall] | [Hs (q & Hq & ->)]].
      * left. auto.
      * right. split; [exact Hs |]. exists q. auto.
Qed.

(** Locating prints one line and writes no file; the path it returns is a
    [logs.py] under some directory. *)
Lemma locate_spec (e : env) (w : world) :
  exists t c,
    locate e w = (Done t, World (files w) c (written w)) /\
    (exists p, t = logs_py_in p) /\
    (files w !! logs_py_in (sys_prefix e // "Lib" // "site-packages") = None ->
     Forall (fun p => files w !! logs_py_in p = None)
            (getsitepackages e ++ [getusersitepackages e]) ->
     files w !! t = None).
Proof.
  unfold locate, mbind, script_bind. rewrite path_exists_eq.
  set (primary := logs_py_in (sys_prefix e // "Lib" // "site-packages")).
  destruct (files w !! primary) eqn:E; simpl.
  - eexists primary, _. split; [reflexivity |]. split; [eauto | congruence].
  - destruct (first_candidate_spec
                (getsitepackages e ++ [getusersitepackages e]) primary w)
      as (t & -> & Ht).
    eexists t, _. split; [reflexivity |]. split.
    + destruct Ht as [[-> _] | [_ (q & _ & ->)]]; eauto.
    + intros _ Hall. destruct Ht as [[-> _] | [[x Hx] (q & Hq & ->)]].
      * exact E.
      * rewrite List.Forall_forall in Hall. rewrite (Hall q Hq) in Hx.
        discriminate.
Qed.

Lemma locate_inv (e : env) (w w1 : world) (t : path) :
  locate e w = (Done t, w1) ->
  files w1 = files w /\ written w1 = written w /\ exists p, t = logs_py_in p.
Proof.
  destruct (locate_spec e w) as (t' & c & -> & Hp & _).
  intros [= <- <-]. simpl. auto.
Qed.

(** The whole of [apply_patch], branch by branch. *)
Lemma apply_patch_spec (e : env) (p : path) (w : world) :
  let t := logs_py_in p in
  let b := parent t // (name t +:+ ".bak_" +:+ strftime "%Y%m%d_%H%M%S" (now e)) in
  exists c,
    apply_patch e t w =
    match files w !! t with
    | None => (Exited 1, World (files w) c (written w))
    | Some orig =>
        if contains marker orig
        then (Exited 0, World (files w) c (written w))
        else if contains old_call (ensure_import orig)
        then (Done tt,
              World (<[t := replace1 old_call new_block (ensure_import orig)]>
                       (<[b := ensure_import orig]> (files w)))
                    c
                    (written w ++
                     [(b, ensure_import orig);
                      (t, replace1 old_call new_block (ensure_import orig))]))
        else (Exited 1, World (files w) c (written w))
    end.
Proof.
  intros t b. pose proof (with_suffix_logs_py p (now e)) as Hws.
  fold t in Hws. fold b in Hws.
  unfold apply_patch, mbind, script_bind.
  rewrite Hws, path_exists_eq. unfold read_text.
  destruct (files w !! t) as [orig|] eqn:E; simpl.
  - rewrite E. destruct (contains marker orig); simpl.
    + eexists. reflexivity.
    + destruct (contains old_call (ensure_import orig)); simpl.
      * unfold print, write_text. simpl.
        rewrite <- (List.app_assoc (written w)). eexists. reflexivity.
      * eexists. reflexivity.
  - eexists. reflexivity.
Qed.

End RunFacts.

(** ** Facts about the time stamp *)

Module StampFacts.
Import PyStr PyLib Patcher Props PyStrFacts LibFacts.

Ltac div_lia := Z.to_euclidean_division_equations; lia.

Lemma decimal_go_unfold (fuel : nat) (n : Z) (acc : string) :
  decimal_go (S fuel) n acc =
  if (n / 10 =? 0)%Z then String (digit n) acc
  else decimal_go fuel (n / 10) (String (digit n) acc).
Proof. reflexivity. Qed.

Lemma decimal_four (n : Z) :
  (1000 <= n <= 9999)%Z -> decimal n = four_digits n.
Proof.
  intros Hn. unfold decimal, four_digits.
  assert (Hf : exists f, Z.to_nat n = S (S (S f))).
  { exists (Z.to_nat n - 3). lia. }
  destruct Hf as [f ->].
  rewrite !decimal_go_unfold.
  replace (n / 10 =? 0)%Z with false by (symmetry; apply Z.eqb_neq; div_lia).
  replace (n / 10 / 10 =? 0)%Z with false
    by (symmetry; apply Z.eqb_neq; div_lia).
  replace (n / 10 / 10 / 10 =? 0)%Z with false
    by (symmetry; apply Z.eqb_neq; div_lia).
  replace (n / 10 / 10 / 10 / 10 =? 0)%Z with true
    by (symmetry; apply Z.eqb_eq; div_lia).
  replace (n / 10 / 10 / 10)%Z with (n / 1000)%Z by div_lia.
  replace (n / 10 / 10)%Z with (n / 100)%Z by div_lia.
  reflexivity.
Qed.

Lemma decimal_two (n : Z) :
  (0 <= n <= 99)%Z -> zfill 2 (decimal n) = two_digits n.
Proof.
  intros Hn. unfold decimal, two_digits.
  destruct (Z.ltb_spec n 10) as [Hs | Hl].
  - rewrite decimal_go_unfold.
    replace (n / 10 =? 0)%Z with true by (symmetry; apply Z.eqb_eq; div_lia).
    replace (n / 10)%Z with 0%Z by div_lia. reflexivity.
  - assert (Hf : exists f, Z.to_nat n = S f).
    { exists (Z.to_nat n - 1). lia. }
    destruct Hf as [f ->]. rewrite !decimal_go_unfold.
    replace (n / 10 =? 0)%Z with false by (symmetry; apply Z.eqb_neq; div_lia).
    replace (n / 10 / 10 =? 0)%Z with true
      by (symmetry; apply Z.eqb_eq; div_lia).
    reflexivity.
Qed.

(** The stamp of a valid clock has the layout [YYYYMMDD_HHMMSS]. *)
Lemma strftime_layout (d : datetime) :
  valid_datetime d -> strftime "%Y%m%d_%H%M%S" d = YYYYMMDD_HHMMSS d.
Proof.
  intros (Hy & Hm & Hd & HH & HM & HS).
  change (strftime "%Y%m%d_%H%M%S" d) with
    (decimal (year d) +:+ zfill 2 (decimal (month d)) +:+
     zfill 2 (decimal (day d)) +:+ String "_"
       (zfill 2 (decimal (hour d)) +:+ zfill 2 (decimal (minute d)) +:+
        zfill 2 (decimal (second d)) +:+ "")).
  unfold YYYYMMDD_HHMMSS.
  rewrite decimal_four by exact Hy. rewrite !decimal_two by lia.
  rewrite str_app_nil_r. reflexivity.
Qed.

Lemma stamp_length (d : datetime) : String.length (YYYYMMDD_HHMMSS d) = 15.
Proof. reflexivity. Qed.

End StampFacts.

(** ** The runs of the script *)

Module Runs.
Import PyStr PyLib Patcher Props Samples.
Import PyStrFacts TextFacts LibFacts StampFacts RunFacts.

(** A run of the script, once the target is located. *)
Lemma main_spec (e : env) (w w1 : world) (t : path) :
  locate e w = (Done t, w1) ->
  exists c,
    main e w =
    match files w !! t with
    | None => (Exited 1, World (files w) c (written w))
    | Some orig =>
        if contains marker orig
        then (Exited 0, World (files w) c (written w))
        else if contains old_call (ensure_import orig)
        then (Done tt,
              World (<[t := replace1 old_call new_block (ensure_import orig)]>
                       (<[backup_of e t := ensure_import orig]> (files w)))
                    c
                    (written w ++
                     [(backup_of e t, ensure_import orig);
                      (t, replace1 old_call new_block (ensure_import orig))]))
        else (Exited 1, World (files w) c (written w))
    end.
Proof.
  intros Hl. destruct (locate_inv _ _ _ _ Hl) as (Hf & Hw & p & ->).
  unfold main, mbind, script_bind. rewrite Hl.
  destruct (apply_patch_spec e p w1) as [c Hc]. simpl in Hc.
  rewrite Hf, Hw in Hc. exists c. exact Hc.
Qed.

(** A run that reaches the end of the script has passed all three checks
    and has written the backup and the target, in this order. *)
Lemma main_done_inv (e : env) (w w1 w' : world) (t : path) :
  locate e w = (Done t, w1) ->
  main e w = (Done tt, w') ->
  exists orig,
    files w !! t = Some orig /\
    contains marker orig = false /\
    contains old_call (ensure_import orig) = true /\
    files w' = <[t := replace1 old_call new_block (ensure_import orig)]>
                 (<[backup_of e t := ensure_import orig]> (files w)) /\
    written w' = written w ++
                 [(backup_of e t, ensure_import orig);
                  (t, replace1 old_call new_block (ensure_import orig))].
Proof.
  intros Hl Hm. destruct (main_spec _ _ _ _ Hl) as [c Hc].
  rewrite Hm in Hc. destruct (files w !! t) as [orig|]; [| discriminate].
  exists orig. destruct (contains marker orig); [discriminate |].
  destruct (contains old_call (ensure_import orig)); [| discriminate].
  injection Hc as ->. simpl. auto.
Qed.

(** The call is searched in the text after the import step; the step
    changes no answer of that search. *)
Lemma old_call_after_import (orig : string) :
  contains old_call (ensure_import orig) = contains old_call orig.
Proof.
  apply contains_ensure_import; [apply old_call_one_line |].
  vm_compute. reflexivity.
Qed.

(** C4. A target that contains the marker [fallback to copying the log
    file] is left alone: the run writes no file, neither a backup nor the
    target, and the process exits with status 0. *)
Theorem marker_present_no_write (e : env) (w w1 : world) (t : path)
    (orig : string) :
  locate e w = (Done t, w1) ->
  files w !! t = Some orig ->
  contains marker orig = true ->
  exists w',
    main e w = (Exited 0, w') /\
    files w' = files w /\ written w' = written w /\
    exit_status (main e w) = 0%Z.
Proof.
  intros Hl Hf Hm. destruct (main_spec _ _ _ _ Hl) as [c Hc].
  rewrite Hf, Hm in Hc. rewrite Hc. eexists. repeat split.
Qed.

Lemma marker_present_no_write_witness :
  exists w',
    main (install morning) (disk marked_text) = (Exited 0, w') /\
    files w' = files (disk marked_text) /\
    written w' = written (disk marked_text) /\
    exit_status (main (install morning) (disk marked_text)) = 0%Z.
Proof.
  apply (marker_present_no_write (install morning) (disk marked_text)
           (snd (locate (install morning) (disk marked_text)))
           logs_py marked_text); vm_compute; reflexivity.
Defined.

(** C5. A target without the marker and without the literal call
    [os.symlink(log_filepath, latest_log_link)] is left alone: the run
    writes no file, so no backup exists and the target is unchanged, and
    the process exits with status 1. *)
Theorem call_missing_no_write (e : env) (w w1 : world) (t : path)
    (orig : string) :
  locate e w = (Done t, w1) ->
  files w !! t = Some orig ->
  contains marker orig = false ->
  contains old_call orig = false ->
  exists w',
    main e w = (Exited 1, w') /\
    files w' = files w /\ written w' = written w /\
    exit_status (main e w) = 1%Z.
Proof.
  intros Hl Hf Hm Hc. destruct (main_spec _ _ _ _ Hl) as [c Hs].
  rewrite Hf, Hm, old_call_after_import, Hc in Hs. rewrite Hs.
  eexists. repeat split.
Qed.

Lemma call_missing_no_write_witness :
  exists w',
    main (install morning) (disk refactored_text) = (Exited 1, w') /\
    files w' = files (disk refactored_text) /\
    written w' = written (disk refactored_text) /\
    exit_status (main (install morning) (disk refactored_text)) = 1%Z.
Proof.
  apply (call_missing_no_write (install morning) (disk refactored_text)
           (snd (locate (install morning) (disk refactored_text)))
           logs_py refactored_text); vm_compute; reflexivity.
Defined.

(** C6. When neither the path under the installation prefix nor any
    candidate under the site-packages directories exists, the run writes
    no file and the process exits with status 1. *)
Theorem target_missing_no_write (e : env) (w : world) :
  files w !! logs_py_in (sys_prefix e // "Lib" // "site-packages") = None ->
  Forall (fun p => files w !! logs_py_in p = None)
         (getsitepackages e ++ [getusersitepackages e]) ->
  exists w',
    main e w = (Exited 1, w') /\
    files w' = files w /\ written w' = written w /\
    exit_status (main e w) = 1%Z.
Proof.
  intros Hp Hall. destruct (locate_spec e w) as (t & c & Hl & _ & Hn).
  specialize (Hn Hp Hall). destruct (main_spec _ _ _ _ Hl) as [c' Hs].
  rewrite Hn in Hs. rewrite Hs. eexists. repeat split.
Qed.

Lemma target_missing_no_write_witness :
  exists w',
    main (install morning) empty_disk = (Exited 1, w') /\
    files w' = files empty_disk /\ written w' = written empty_disk /\
    exit_status (main (install morning) empty_disk) = 1%Z.
Proof.
  apply (target_missing_no_write (install morning) empty_disk).
  - vm_compute. reflexivity.
  - repeat (constructor; [vm_compute; reflexivity |]). constructor.
Defined.

(** C9. The text written to the target by a run that patches is the text
    after the import step with its leftmost call replaced by the block.
    It still has the literal call [os.symlink(log_filepath,
    latest_log_link)], and the leftmost call in it is the one inside the
    block, after the lines [try:], [if os.path.exists(...)] and
    [os.remove(...)]; it has no occurrence of the marker
    [fallback to copying the log file]. *)
Theorem patched_text_has_call_and_no_marker (e : env) (w w1 w' : world)
    (t : path) :
  locate e w = (Done t, w1) ->
  main e w = (Done tt, w') ->
  exists new,
    files w' !! t = Some new /\
    In (t, new) (written w') /\
    contains old_call new = true /\
    contains marker new = false /\
    exists orig a b,
      files w !! t = Some orig /\
      first_occurrence old_call (ensure_import orig) a b /\
      new = a +:+ new_block +:+ b /\
      new_block = block_before_call +:+ old_call +:+ block_after_call /\
      first_occurrence old_call new
        (a +:+ block_before_call) (block_after_call +:+ b).
Proof.
  intros Hl Hm.
  destruct (main_done_inv _ _ _ _ _ Hl Hm) as (orig & Ho & Hk & Hc & Hf & Hw).
  destruct (replace1_first _ new_block _ Hc) as (a & b & Hfo & Hr).
  destruct (patched_text orig Hk Hc) as [H1 H2].
  exists (replace1 old_call new_block (ensure_import orig)).
  rewrite Hf, Hw, lookup_insert_eq.
  split; [reflexivity |].
  split; [apply in_or_app; right; simpl; auto |].
  split; [exact H1 |]. split; [exact H2 |].
  exists orig, a, b.
  split; [exact Ho |]. split; [exact Hfo |]. split; [exact Hr |].
  split; [apply new_block_split |].
  rewrite Hr. eapply call_of_block_is_first, Hfo.
Qed.

Lemma patched_text_has_call_and_no_marker_witness :
  exists new,
    files (snd (main (install morning) (disk unpatched_text))) !! logs_py
      = Some new /\
    In (logs_py, new)
       (written (snd (main (install morning) (disk unpatched_text)))) /\
    contains old_call new = true /\
    contains marker new = false /\
    exists orig a b,
      files (disk unpatched_text) !! logs_py = Some orig /\
      first_occurrence old_call (ensure_import orig) a b /\
      new = a +:+ new_block +:+ b /\
      new_block = block_before_call +:+ old_call +:+ block_after_call /\
      first_occurrence old_call new
        (a +:+ block_before_call) (block_after_call +:+ b).
Proof.
  apply (patched_text_has_call_and_no_marker
           (install morning) (disk unpatched_text)
           (snd (locate (install morning) (disk unpatched_text)))
           (snd (main (install morning) (disk unpatched_text)))
           logs_py); vm_compute; reflexivity.
Defined.



(** The stamp in the name of the sample backup. *)
Example sample_stamp :
  map fst (written (snd (main (install morning) (disk unpatched_text)))) =
  [parent logs_py // "logs.py.bak_20250307_090500"; logs_py].
Proof. vm_compute. reflexivity. Qed.



(** C10. The text written to the target by a run that patches is the text
    read, except that the leftmost call became the block and that at most
    one line [import shutil] was added, right after the leftmost
    [import os] line of a text without [import shutil]; every other
    character keeps its place relative to these. *)
Theorem transformation_frame (e : env) (w w1 w' : world) (t : path)
    (orig : string) :
  locate e w = (Done t, w1) ->
  files w !! t = Some orig ->
  main e w = (Done tt, w') ->
  exists new, files w' !! t = Some new /\ frame orig new.
Proof.
  intros Hl Hf Hm.
  destruct (main_done_inv _ _ _ _ _ Hl Hm) as (o & Ho & _ & Hc & Hw & _).
  rewrite Hf in Ho. injection Ho as <-.
  exists (replace1 old_call new_block (ensure_import orig)).
  rewrite Hw, lookup_insert_eq. split; [reflexivity |].
  now apply patch_frame.
Qed.

Lemma transformation_frame_witness :
  exists new,
    files (snd (main (install morning) (disk unpatched_text))) !! logs_py
      = Some new /\
    frame unpatched_text new.
Proof.
  apply (transformation_frame
           (install morning) (disk unpatched_text)
           (snd (locate (install morning) (disk unpatched_text)))
           (snd (main (install morning) (disk unpatched_text)))
           logs_py unpatched_text); vm_compute; reflexivity.
Defined.

(** C3, as amended. On a target without the marker and with the call, the
    run patches: it adds the line [import shutil] after the leftmost
    [import os] line when the text has no [import shutil] and has such a
    line, and adds nothing when the text has no [import os] line; it
    replaces the leftmost call by the block; and it writes the text so
    obtained to the target. *)
Theorem transformation_postcondition (e : env) (w w1 : world) (t : path)
    (orig : string) :
  locate e w = (Done t, w1) ->
  files w !! t = Some orig ->
  contains marker orig = false ->
  contains old_call orig = true ->
  exists w' mid new,
    main e w = (Done tt, w') /\
    import_step_if_anchor orig mid /\
    call_replaced mid new /\
    frame orig new /\
    files w' !! t = Some new /\
    In (t, new) (written w').
Proof.
  intros Hl Hf Hm Hc. rewrite <- old_call_after_import in Hc.
  destruct (main_spec _ _ _ _ Hl) as [c Hr].
  rewrite Hf, Hm, Hc in Hr. rewrite Hr.
  eexists _, (ensure_import orig), _. split; [reflexivity |]. simpl.
  split; [apply ensure_import_step |].
  split; [| split; [now apply patch_frame |]].
  - destruct (replace1_first _ new_block _ Hc) as (a & b & Hfo & E).
    exists a, b. auto.
  - split; [apply lookup_insert_eq |].
    apply in_or_app. right. simpl. auto.
Qed.

Lemma transformation_postcondition_witness :
  exists w' mid new,
    main (install morning) (disk unpatched_text) = (Done tt, w') /\
    import_step_if_anchor unpatched_text mid /\
    call_replaced mid new /\
    frame unpatched_text new /\
    files w' !! logs_py = Some new /\
    In (logs_py, new) (written w').
Proof.
  apply (transformation_postcondition
           (install morning) (disk unpatched_text)
           (snd (locate (install morning) (disk unpatched_text)))
           logs_py unpatched_text); vm_compute; reflexivity.
Defined.

(** C3, as worded: the import is added whenever [import shutil] is
    absent.  The sample whose [import os] shares its line with another
    module has no marker and has the call, and no run on it fits. *)
Lemma transformation_postcondition_counterexample :
  locate (install morning) (disk no_anchor_text) =
    (Done logs_py, snd (locate (install morning) (disk no_anchor_text))) /\
  files (disk no_anchor_text) !! logs_py = Some no_anchor_text /\
  contains marker no_anchor_text = false /\
  contains old_call no_anchor_text = true /\
  ~ (exists w' mid new,
       main (install morning) (disk no_anchor_text) = (Done tt, w') /\
       import_step_always no_anchor_text mid /\
       call_replaced mid new /\
       files w' !! logs_py = Some new).
Proof.
  repeat (split; [vm_compute; reflexivity |]).
  intros (w' & mid & new & _ & Hstep & _).
  unfold import_step_always in Hstep.
  change (contains import_shutil no_anchor_text) with false in Hstep.
  destruct Hstep as (p & q & [E _] & _).
  assert (H : contains import_os_line no_anchor_text = false)
    by (vm_compute; reflexivity).
  rewrite E, contains_app in H. discriminate.
Qed.

(** The text of the backup, for every run that patches: the text after
    the import step.  It is the text read only when that step changed
    nothing. *)
Lemma backup_text (e : env) (w w1 w' : world) (t : path) (orig : string) :
  locate e w = (Done t, w1) ->
  files w !! t = Some orig ->
  main e w = (Done tt, w') ->
  exists backup new,
    written w' = written w ++ [(backup, ensure_import orig); (t, new)] /\
    (ensure_import orig = orig <->
     contains import_shutil orig = true \/
     contains import_os_line orig = false).
Proof.
  intros Hl Hf Hm.
  destruct (main_done_inv _ _ _ _ _ Hl Hm) as (o & Ho & _ & _ & _ & Hw).
  rewrite Hf in Ho. injection Ho as <-.
  eexists _, _. split; [exact Hw | apply ensure_import_fixed].
Qed.

(** C2, on the sample with an [import os] line and no [import shutil]:
    the run patches, and the backup it writes starts with the two lines
    [import os] and [import shutil]; it is not the text the run read. *)
Theorem backup_differs_from_original :
  exists backup new,
    main (install morning) (disk unpatched_text) =
      (Done tt, snd (main (install morning) (disk unpatched_text))) /\
    written (snd (main (install morning) (disk unpatched_text))) =
      [(backup,
        "import os" +:+ LF +:+ "import shutil" +:+ LF +:+
        "import tempfile" +:+ LF +:+
        "def log_to_tmp_folder():" +:+ LF +:+
        "    os.symlink(log_filepath, latest_log_link)" +:+ LF);
       (logs_py, new)] /\
    files (snd (main (install morning) (disk unpatched_text))) !! backup <>
      Some unpatched_text.
Proof.
  eexists _, _. split; [vm_compute; reflexivity |].
  split; [vm_compute; reflexivity |].
  vm_compute. intros H. discriminate H.
Qed.

(** A second run on the output of a run that patched patches again, at
    whatever time: the marker check does not stop it, it writes two more
    files, and the target grows. *)
Lemma rerun_patches_again (e e' : env) (w w1 w' w1' : world) (t : path) :
  locate e w = (Done t, w1) ->
  main e w = (Done tt, w') ->
  locate e' w' = (Done t, w1') ->
  exists w'' backup text text',
    main e' w' = (Done tt, w'') /\
    files w' !! t = Some text /\
    written w'' = written w' ++ [(backup, ensure_import text); (t, text')] /\
    files w'' !! t = Some text' /\
    String.length text < String.length text'.
Proof.
  intros Hl Hm Hl'.
  destruct (main_done_inv _ _ _ _ _ Hl Hm) as (orig & _ & Hk & Hc & Hf & _).
  destruct (patched_text orig Hk Hc) as [Hc' Hk'].
  set (text := replace1 old_call new_block (ensure_import orig)) in *.
  assert (Ht : files w' !! t = Some text).
  { rewrite Hf. apply lookup_insert_eq. }
  rewrite <- old_call_after_import in Hc'.
  destruct (main_spec _ _ _ _ Hl') as [c Hr].
  rewrite Ht, Hk', Hc' in Hr. rewrite Hr.
  eexists _, _, text, _. split; [reflexivity |]. simpl.
  split; [exact Ht |]. split; [reflexivity |].
  split; [apply lookup_insert_eq |].
  eapply Nat.le_lt_trans; [| apply patched_longer, Hc'].
  destruct (ensure_import_cases text)
    as [[-> _] | (_ & p & q & [E _] & ->)]; [lia |].
  rewrite E, !str_length_app. simpl. lia.
Qed.

(** C1, on the sample: the first run patches; the second run, a minute
    later, finds no marker in the patched text, patches it once more and
    leaves a longer target, after four writes in all. *)
Theorem second_run_rewrites_target :
  let first := main (install morning) (disk unpatched_text) in
  let second := main (install a_minute_later) (snd first) in
  fst first = Done tt /\
  (exists text, files (snd first) !! logs_py = Some text /\
                contains marker text = false) /\
  fst second = Done tt /\
  length (written (snd second)) = 4 /\
  files (snd second) !! logs_py <> files (snd first) !! logs_py.
Proof.
  split; [vm_compute; reflexivity |].
  split; [eexists; split; vm_compute; reflexivity |].
  split; [vm_compute; reflexivity |].
  split; [vm_compute; reflexivity |].
  vm_compute. intros H. discriminate H.
Qed.

End Runs.

(** ** Which file a run picks *)

Module LocateFacts.
Import PyStr PyLib Patcher Props Samples MoreSamples.
Import PyStrFacts TextFacts LibFacts StampFacts RunFacts Runs.

(** A result is its outcome paired with its world. *)
Lemma run_eq {A : Type} (r : outcome A * world) (o : outcome A) :
  fst r = o -> r = (o, snd r).
Proof. destruct r as [o' w']. simpl. intros ->. reflexivity. Qed.

(** Evaluating a run, or a lookup, of a sample. *)
Ltac by_running :=
  first [ apply run_eq; vm_compute; reflexivity | vm_compute; reflexivity ].

(** The loop returns the candidate of the first directory whose candidate
    exists, and [target] when no candidate exists. *)
Lemma first_candidate_first (dirs : list path) (target : path) (w : world) :
  exists t,
    first_candidate dirs target w = (Done t, w) /\
    ((t = target /\ Forall (fun p => files w !! logs_py_in p = None) dirs) \/
     (exists pre p post,
        dirs = pre ++ p :: post /\ t = logs_py_in p /\
        is_Some (files w !! t) /\
        Forall (fun q => files w !! logs_py_in q = None) pre)).
Proof.
  induction dirs as [|p dirs IH]; simpl.
  - exists target. split; [reflexivity | left; auto].
  - unfold mbind, script_bind. rewrite path_exists_eq.
    destruct (files w !! logs_py_in p) eqn:E.
    + exists (logs_py_in p). split; [reflexivity |]. right.
      exists [], p, dirs. rewrite E. repeat split; eauto.
    + destruct IH as (t & -> & Ht). exists t. split; [reflexivity |].
      destruct Ht as [[-> Hall] | (pre & q & post & -> & -> & Hs & Hall)].
      * left. auto.
      * right. exists (p :: pre), q, post. repeat split; auto.
Qed.

(** X1. The located target is the path under the installation prefix when
    that file exists; otherwise it is the candidate of the first
    directory, in the order of [site.getsitepackages()] followed by the
    user site, whose candidate exists; and it is the missing path under
    the prefix when no candidate exists. *)
Theorem locate_order (e : env) (w w1 : world) (t : path) :
  locate e w = (Done t, w1) ->
  (is_Some (files w !! logs_py_in (sys_prefix e // "Lib" // "site-packages"))
   -> t = logs_py_in (sys_prefix e // "Lib" // "site-packages")) /\
  (files w !! logs_py_in (sys_prefix e // "Lib" // "site-packages") = None ->
   (t = logs_py_in (sys_prefix e // "Lib" // "site-packages") /\
    Forall (fun p => files w !! logs_py_in p = None)
           (getsitepackages e ++ [getusersitepackages e])) \/
   (exists pre p post,
      getsitepackages e ++ [getusersitepackages e] = pre ++ p :: post /\
      t = logs_py_in p /\
      is_Some (files w !! t) /\
      Forall (fun q => files w !! logs_py_in q = None) pre)).
Proof.
  intros Hl. revert Hl.
  unfold locate, mbind, script_bind. rewrite path_exists_eq.
  set (primary := logs_py_in (sys_prefix e // "Lib" // "site-packages")).
  set (dirs := getsitepackages e ++ [getusersitepackages e]).
  destruct (files w !! primary) eqn:E; simpl.
  - intros [= <- _]. split; [reflexivity | discriminate].
  - destruct (first_candidate_first dirs primary w) as (t' & -> & Ht).
    simpl. intros [= <- _]. split; [intros [x Hx]; discriminate | auto].
Qed.

Lemma locate_order_witness :
  (is_Some (files (disk unpatched_text) !!
              logs_py_in (sys_prefix (venv morning) // "Lib" // "site-packages"))
   -> logs_py = logs_py_in (sys_prefix (venv morning) // "Lib" // "site-packages")) /\
  (files (disk unpatched_text) !!
     logs_py_in (sys_prefix (venv morning) // "Lib" // "site-packages") = None ->
   (logs_py = logs_py_in (sys_prefix (venv morning) // "Lib" // "site-packages") /\
    Forall (fun p => files (disk unpatched_text) !! logs_py_in p = None)
           (getsitepackages (venv morning) ++
            [getusersitepackages (venv morning)])) \/
   (exists pre p post,
      getsitepackages (venv morning) ++ [getusersitepackages (venv morning)]
        = pre ++ p :: post /\
      logs_py = logs_py_in p /\
      is_Some (files (disk unpatched_text) !! logs_py) /\
      Forall (fun q => files (disk unpatched_text) !! logs_py_in q = None) pre)).
Proof.
  apply (locate_order (venv morning) (disk unpatched_text)
           (snd (locate (venv morning) (disk unpatched_text))) logs_py).
  by_running.
Defined.

(** Locating asks only which candidates exist. *)
Lemma first_candidate_ext (dirs : list path) (target : path) (w w' : world) :
  (forall p, is_Some (files w !! logs_py_in p) <->
             is_Some (files w' !! logs_py_in p)) ->
  fst (first_candidate dirs target w) = fst (first_candidate dirs target w').
Proof.
  intros H. induction dirs as [|p dirs IH]; simpl; [reflexivity |].
  unfold mbind, script_bind. rewrite !path_exists_eq.
  specialize (H p).
  destruct (files w !! logs_py_in p), (files w' !! logs_py_in p);
    try reflexivity; try exact IH; exfalso.
  - destruct H as [H _]. destruct H as [x Hx]; [eauto | discriminate].
  - destruct H as [_ H]. destruct H as [x Hx]; [eauto | discriminate].
Qed.

Lemma locate_ext (e e' : env) (w w' : world) :
  sys_prefix e' = sys_prefix e ->
  getsitepackages e' = getsitepackages e ->
  getusersitepackages e' = getusersitepackages e ->
  (forall p, is_Some (files w !! logs_py_in p) <->
             is_Some (files w' !! logs_py_in p)) ->
  fst (locate e' w') = fst (locate e w).
Proof.
  intros Hp Hs Hu H. unfold locate, mbind, script_bind.
  rewrite !path_exists_eq, Hp, Hs, Hu.
  set (primary := logs_py_in (sys_prefix e // "Lib" // "site-packages")).
  set (dirs := getsitepackages e ++ [getusersitepackages e]).
  pose proof (H (sys_prefix e // "Lib" // "site-packages")) as Hprim.
  fold primary in Hprim.
  pose proof (first_candidate_ext dirs primary w w' H) as Hext.
  destruct (first_candidate_spec dirs primary w) as (t1 & E1 & _).
  destruct (first_candidate_spec dirs primary w') as (t2 & E2 & _).
  rewrite E1, E2 in Hext. simpl in Hext.
  destruct (files w !! primary), (files w' !! primary); simpl.
  - reflexivity.
  - exfalso. destruct Hprim as [Hx _]. destruct Hx as [x Hx]; [eauto | discriminate].
  - exfalso. destruct Hprim as [_ Hx]. destruct Hx as [x Hx]; [eauto | discriminate].
  - rewrite E1, E2. simpl. congruence.
Qed.

(** The backup of a located file is no [logs.py]. *)
Lemma backup_not_logs_py (e : env) (p q : path) :
  backup_of e (logs_py_in p) <> logs_py_in q.
Proof.
  intros E. apply (f_equal name) in E.
  rewrite name_joinpath in E.
  assert (Hn : forall r, name (logs_py_in r) = "logs.py")
    by (intros r; apply name_joinpath).
  rewrite !Hn in E. apply (f_equal String.length) in E.
  rewrite str_length_app in E. simpl in E. lia.
Qed.

(** X2. A run that patches does not change which file the script picks:
    with the same prefix and the same site-packages directories, at
    whatever time, the next run locates the same target. *)
Theorem locate_stable_after_patch (e e' : env) (w w1 w' : world) (t : path) :
  locate e w = (Done t, w1) ->
  main e w = (Done tt, w') ->
  sys_prefix e' = sys_prefix e ->
  getsitepackages e' = getsitepackages e ->
  getusersitepackages e' = getusersitepackages e ->
  exists w1', locate e' w' = (Done t, w1').
Proof.
  intros Hl Hm Hp Hs Hu.
  destruct (main_done_inv _ _ _ _ _ Hl Hm) as (orig & Ho & _ & _ & Hf & _).
  destruct (locate_inv _ _ _ _ Hl) as (_ & _ & p0 & ->).
  assert (H : forall p, is_Some (files w !! logs_py_in p) <->
                        is_Some (files w' !! logs_py_in p)).
  { intros p. rewrite Hf.
    destruct (decide (logs_py_in p = logs_py_in p0)) as [-> | Hne].
    - rewrite lookup_insert_eq, Ho. split; eauto.
    - rewrite lookup_insert_ne by congruence.
      rewrite lookup_insert_ne by apply backup_not_logs_py. reflexivity. }
  pose proof (locate_ext e e' w w' Hp Hs Hu H) as Hx.
  rewrite Hl in Hx. simpl in Hx.
  destruct (locate e' w') as [r w1'] eqn:E. simpl in Hx. subst r.
  exists w1'. reflexivity.
Qed.

Lemma locate_stable_after_patch_witness :
  exists w1',
    locate (install a_minute_later)
           (snd (main (install morning) (disk unpatched_text))) =
    (Done logs_py, w1').
Proof.
  apply (locate_stable_after_patch
           (install morning) (install a_minute_later) (disk unpatched_text)
           (snd (locate (install morning) (disk unpatched_text)))
           (snd (main (install morning) (disk unpatched_text)))
           logs_py); by_running.
Defined.

End LocateFacts.

(** ** What a run does to the disk and to the text *)

Module Behaviour.
Import PyStr PyLib Patcher Props Samples MoreSamples.
Import PyStrFacts TextFacts LibFacts StampFacts RunFacts Runs LocateFacts.

(** X3. Every run either stops at a check, with status 0 or 1 and the
    disk as it was, or runs to its end after exactly two writes: the
    backup first, then the target, which existed before; the backup is
    never the target itself. *)
Theorem writes_all_or_nothing (e : env) (w : world) :
  exists w',
    (exists n, main e w = (Exited n, w') /\ (n = 0 \/ n = 1)%Z /\
               files w' = files w /\ written w' = written w) \/
    (main e w = (Done tt, w') /\
     exists t backup old new,
       is_Some (files w !! t) /\ backup <> t /\
       written w' = written w ++ [(backup, old); (t, new)] /\
       files w' = <[t := new]> (<[backup := old]> (files w))).
Proof.
  destruct (locate_spec e w) as (t & c & Hl & [p ->] & _).
  destruct (main_spec _ _ _ _ Hl) as [c' Hr]. rewrite Hr.
  destruct (files w !! logs_py_in p) as [orig|] eqn:Ho.
  - destruct (contains marker orig).
    + eexists. left. exists 0%Z. repeat split. auto.
    + destruct (contains old_call (ensure_import orig)).
      * eexists. right. split; [reflexivity |].
        eexists (logs_py_in p), _, _, _. rewrite Ho. simpl.
        repeat split; eauto. apply backup_not_logs_py.
      * eexists. left. exists 1%Z. repeat split. auto.
  - eexists. left. exists 1%Z. repeat split. auto.
Qed.

(** X4. The exit status, read off the located file: 1 when the file is
    missing; 0 when its text has the marker or has the call; 1 when it
    has neither. *)
Theorem exit_status_table (e : env) (w w1 : world) (t : path) :
  locate e w = (Done t, w1) ->
  exit_status (main e w) =
  match files w !! t with
  | None => 1%Z
  | Some orig => if contains marker orig || contains old_call orig
                 then 0%Z else 1%Z
  end.
Proof.
  intros Hl. destruct (main_spec _ _ _ _ Hl) as [c Hr]. rewrite Hr.
  destruct (files w !! t) as [orig|]; [| reflexivity].
  rewrite old_call_after_import.
  destruct (contains marker orig); [reflexivity |].
  destruct (contains old_call orig); reflexivity.
Qed.

Lemma exit_status_table_witness :
  exit_status (main (install morning) (disk refactored_text)) =
  match files (disk refactored_text) !! logs_py with
  | None => 1%Z
  | Some orig => if contains marker orig || contains old_call orig
                 then 0%Z else 1%Z
  end.
Proof.
  apply (exit_status_table (install morning) (disk refactored_text)
           (snd (locate (install morning) (disk refactored_text))) logs_py).
  by_running.
Defined.

(** X5. A run leaves every file other than the target and the backup of
    this run as it was, whatever the outcome. *)
Theorem other_files_untouched (e : env) (w w1 : world) (t q : path) :
  locate e w = (Done t, w1) ->
  q <> t -> q <> backup_of e t ->
  files (snd (main e w)) !! q = files w !! q.
Proof.
  intros Hl Ht Hb. destruct (main_spec _ _ _ _ Hl) as [c Hr]. rewrite Hr.
  destruct (files w !! t) as [orig|]; [| reflexivity].
  destruct (contains marker orig); [reflexivity |].
  destruct (contains old_call (ensure_import orig)); [| reflexivity].
  cbn [snd files]. rewrite !lookup_insert_ne by congruence. reflexivity.
Qed.

Lemma other_files_untouched_witness :
  files (snd (main (install morning) (disk_with_neighbour unpatched_text)))
    !! ["C:"; "notes.txt"] =
  files (disk_with_neighbour unpatched_text) !! ["C:"; "notes.txt"].
Proof.
  apply (other_files_untouched
           (install morning) (disk_with_neighbour unpatched_text)
           (snd (locate (install morning) (disk_with_neighbour unpatched_text)))
           logs_py ["C:"; "notes.txt"]).
  - by_running.
  - vm_compute. discriminate.
  - vm_compute. discriminate.
Defined.

(** X6. No run deletes a file: what exists before a run exists after it. *)
Theorem no_file_deleted (e : env) (w : world) (q : path) :
  is_Some (files w !! q) -> is_Some (files (snd (main e w)) !! q).
Proof.
  intros Hq. destruct (locate_spec e w) as (t & c & Hl & _ & _).
  destruct (main_spec _ _ _ _ Hl) as [c' Hr]. rewrite Hr.
  destruct (files w !! t) as [orig|]; [| exact Hq].
  destruct (contains marker orig); [exact Hq |].
  destruct (contains old_call (ensure_import orig)); [| exact Hq].
  cbn [snd files]. rewrite !lookup_insert_is_Some'. auto.
Qed.

Lemma no_file_deleted_witness :
  is_Some (files (snd (main (install morning)
                         (disk_with_neighbour unpatched_text)))
             !! ["C:"; "notes.txt"]).
Proof.
  apply (no_file_deleted (install morning)
           (disk_with_neighbour unpatched_text) ["C:"; "notes.txt"]).
  vm_compute. eauto.
Defined.

(** After the import step a text has [import shutil] exactly when it had
    one or had an [import os] line to put it after. *)
Lemma import_shutil_after_step (orig : string) :
  contains import_shutil (ensure_import orig) =
  contains import_shutil orig || contains import_os_line orig.
Proof.
  destruct (ensure_import_cases orig)
    as [[-> [H | H]] | (Hs & p & q & [E _] & ->)].
  - now rewrite H.
  - rewrite H. now rewrite orb_false_r.
  - rewrite Hs, E, contains_app.
    transitivity true; [| reflexivity].
    apply contains_mid. vm_compute. reflexivity.
Qed.

(** X7. The import step is idempotent: applied to its own result it
    changes nothing, so no text ever gets a second [import shutil] line
    from it. *)
Theorem ensure_import_idempotent (orig : string) :
  ensure_import (ensure_import orig) = ensure_import orig.
Proof.
  apply ensure_import_fixed. rewrite import_shutil_after_step.
  destruct (contains import_shutil orig); [auto |].
  destruct (contains import_os_line orig) eqn:Ha; [auto |].
  right. unfold ensure_import.
  destruct (negb (contains import_shutil orig)); [| exact Ha].
  now rewrite replace1_absent.
Qed.

(** Replacing the call by the block neither hides nor creates an
    [import shutil]. *)
Lemma import_shutil_through_patch (mid : string) :
  contains old_call mid = true ->
  contains import_shutil (replace1 old_call new_block mid) =
  contains import_shutil mid.
Proof.
  intros Hc.
  destruct (replace1_first _ new_block _ Hc) as (a & b & [E _] & ->).
  rewrite contains_new_block;
    [| apply import_shutil_one_line | vm_compute; reflexivity ..].
  rewrite E.
  replace (a +:+ old_call +:+ b) with
    ((a +:+ "os") +:+
     String "." ("symlink(log_filepath, latest_log_link" +:+ String ")" b))
    by str_eq.
  rewrite (contains_sep "."), (contains_sep ")") by (vm_compute; reflexivity).
  rewrite contains_junction by (vm_compute; reflexivity).
  reflexivity.
Qed.

(** X8. The text a patching run writes to the target has the literal
    [shutil.copy2(log_filepath, latest_log_link)], and has the literal
    [import shutil] exactly when the text read had [import shutil] or had
    an [import os] followed by a line break. *)
Theorem import_present_after_patch (e : env) (w w1 w' : world) (t : path)
    (orig : string) :
  locate e w = (Done t, w1) ->
  files w !! t = Some orig ->
  main e w = (Done tt, w') ->
  exists new,
    files w' !! t = Some new /\
    contains "shutil.copy2(log_filepath, latest_log_link)" new = true /\
    contains import_shutil new =
      contains import_shutil orig || contains import_os_line orig.
Proof.
  intros Hl Hf Hm.
  destruct (main_done_inv _ _ _ _ _ Hl Hm) as (o & Ho & _ & Hc & Hw & _).
  rewrite Hf in Ho. injection Ho as <-.
  exists (replace1 old_call new_block (ensure_import orig)).
  rewrite Hw, lookup_insert_eq. split; [reflexivity |]. split.
  - destruct (replace1_first _ new_block _ Hc) as (a & b & _ & ->).
    apply contains_mid. vm_compute. reflexivity.
  - rewrite import_shutil_through_patch by exact Hc.
    apply import_shutil_after_step.
Qed.

Lemma import_present_after_patch_witness :
  exists new,
    files (snd (main (install morning) (disk unpatched_text))) !! logs_py
      = Some new /\
    contains "shutil.copy2(log_filepath, latest_log_link)" new = true /\
    contains import_shutil new =
      contains import_shutil unpatched_text ||
      contains import_os_line unpatched_text.
Proof.
  apply (import_present_after_patch
           (install morning) (disk unpatched_text)
           (snd (locate (install morning) (disk unpatched_text)))
           (snd (main (install morning) (disk unpatched_text)))
           logs_py unpatched_text); by_running.
Defined.

(** X9. A patching run makes the target longer by 396 characters, the
    block being that much longer than the call, and by 14 more when it
    adds the line [import shutil]. *)
Theorem patched_length (e : env) (w w1 w' : world) (t : path)
    (orig : string) :
  locate e w = (Done t, w1) ->
  files w !! t = Some orig ->
  main e w = (Done tt, w') ->
  exists new,
    files w' !! t = Some new /\
    String.length new =
      String.length orig + 396 +
      (if negb (contains import_shutil orig) && contains import_os_line orig
       then 14 else 0).
Proof.
  intros Hl Hf Hm.
  destruct (main_done_inv _ _ _ _ _ Hl Hm) as (o & Ho & _ & Hc & Hw & _).
  rewrite Hf in Ho. injection Ho as <-.
  exists (replace1 old_call new_block (ensure_import orig)).
  rewrite Hw, lookup_insert_eq. split; [reflexivity |].
  destruct (replace1_first _ new_block _ Hc) as (a & b & [E _] & ->).
  assert (Hn : String.length (a +:+ new_block +:+ b) =
               String.length (ensure_import orig) + 396).
  { rewrite E, !str_length_app.
    change (String.length old_call) with 41.
    change (String.length new_block) with 437. lia. }
  rewrite Hn. clear Hn E Hc.
  destruct (ensure_import_cases orig)
    as [[-> [H | H]] | (Hs & p & q & [E _] & ->)].
  - rewrite H. simpl. lia.
  - rewrite H, andb_false_r. lia.
  - rewrite Hs, E, contains_app, !str_length_app. simpl. lia.
Qed.

Lemma patched_length_witness :
  exists new,
    files (snd (main (install morning) (disk both_imports_text))) !! logs_py
      = Some new /\
    String.length new =
      String.length both_imports_text + 396 +
      (if negb (contains import_shutil both_imports_text) &&
          contains import_os_line both_imports_text
       then 14 else 0).
Proof.
  apply (patched_length
           (install morning) (disk both_imports_text)
           (snd (locate (install morning) (disk both_imports_text)))
           (snd (main (install morning) (disk both_imports_text)))
           logs_py both_imports_text); by_running.
Defined.

(** *** Running again *)

Lemma ensure_import_grows (s : string) :
  String.length s <= String.length (ensure_import s).
Proof.
  destruct (ensure_import_cases s)
    as [[-> _] | (_ & p & q & [E _] & ->)]; [lia |].
  rewrite E, !str_length_app. simpl. lia.
Qed.

(** X10. A run after a run that patched, with the same prefix and
    site-packages directories and at whatever time, is not stopped by the
    marker check: it locates the same target, writes a backup and the
    target again, and leaves the target longer than it found it. *)
Theorem second_run_repatches (e e' : env) (w w1 w' : world) (t : path) :
  locate e w = (Done t, w1) ->
  main e w = (Done tt, w') ->
  sys_prefix e' = sys_prefix e ->
  getsitepackages e' = getsitepackages e ->
  getusersitepackages e' = getusersitepackages e ->
  exists w'' text text',
    main e' w' = (Done tt, w'') /\
    files w' !! t = Some text /\
    files w'' !! t = Some text' /\
    String.length text < String.length text' /\
    length (written w'') = length (written w') + 2.
Proof.
  intros Hl Hm Hp Hs Hu.
  destruct (locate_stable_after_patch _ _ _ _ _ _ Hl Hm Hp Hs Hu)
    as [w1' Hl'].
  destruct (rerun_patches_again _ _ _ _ _ _ _ Hl Hm Hl')
    as (w'' & b & text & text' & Hm' & Ht & Hw & Ht' & Hlen).
  exists w'', text, text'. repeat split; try assumption.
  rewrite Hw, length_app. reflexivity.
Qed.

Lemma second_run_repatches_witness :
  exists w'' text text',
    main (install a_minute_later)
         (snd (main (install morning) (disk unpatched_text))) =
      (Done tt, w'') /\
    files (snd (main (install morning) (disk unpatched_text))) !! logs_py
      = Some text /\
    files w'' !! logs_py = Some text' /\
    String.length text < String.length text' /\
    length (written w'') =
      length (written (snd (main (install morning) (disk unpatched_text)))) + 2.
Proof.
  apply (second_run_repatches
           (install morning) (install a_minute_later) (disk unpatched_text)
           (snd (locate (install morning) (disk unpatched_text)))
           (snd (main (install morning) (disk unpatched_text)))
           logs_py); by_running.
Defined.

(** X11. Two runs within the same second share the name of their backup:
    after the second run the backup file holds the text the first run
    left in the target, and the text saved by the first run is gone from
    it. *)
Theorem same_second_rerun_overwrites_backup (e : env) (w w1 w' : world)
    (t : path) (orig : string) :
  locate e w = (Done t, w1) ->
  files w !! t = Some orig ->
  main e w = (Done tt, w') ->
  exists w'' patched,
    main e w' = (Done tt, w'') /\
    files w' !! t = Some patched /\
    files w' !! backup_of e t = Some (ensure_import orig) /\
    files w'' !! backup_of e t = Some (ensure_import patched) /\
    String.length (ensure_import orig) <
      String.length (ensure_import patched).
Proof.
  intros Hl Hf Hm.
  destruct (main_done_inv _ _ _ _ _ Hl Hm) as (o & Ho & _ & Hc & Hw & _).
  rewrite Hf in Ho. injection Ho as <-.
  destruct (locate_inv _ _ _ _ Hl) as (_ & _ & p0 & Hp0).
  assert (Hbt : backup_of e t <> t).
  { rewrite Hp0. apply backup_not_logs_py. }
  destruct (locate_stable_after_patch e e _ _ _ _ Hl Hm eq_refl eq_refl eq_refl)
    as [w1' Hl'].
  destruct (rerun_patches_again _ _ _ _ _ _ _ Hl Hm Hl')
    as (w'' & b & text & text' & Hm' & Ht & _).
  destruct (main_done_inv _ _ _ _ _ Hl' Hm') as (o2 & Ho2 & _ & _ & Hw2 & _).
  rewrite Ht in Ho2. injection Ho2 as <-.
  assert (Htext : text = replace1 old_call new_block (ensure_import orig)).
  { rewrite Hw, lookup_insert_eq in Ht. congruence. }
  exists w'', text. split; [exact Hm' |]. split; [exact Ht |]. split; [| split].
  - rewrite Hw, lookup_insert_ne by congruence. apply lookup_insert_eq.
  - rewrite Hw2, lookup_insert_ne by congruence. apply lookup_insert_eq.
  - eapply Nat.lt_le_trans; [| apply ensure_import_grows].
    rewrite Htext. now apply patched_longer.
Qed.

Lemma same_second_rerun_overwrites_backup_witness :
  exists w'' patched,
    main (install morning)
         (snd (main (install morning) (disk unpatched_text))) =
      (Done tt, w'') /\
    files (snd (main (install morning) (disk unpatched_text))) !! logs_py
      = Some patched /\
    files (snd (main (install morning) (disk unpatched_text)))
      !! backup_of (install morning) logs_py
      = Some (ensure_import unpatched_text) /\
    files w'' !! backup_of (install morning) logs_py
      = Some (ensure_import patched) /\
    String.length (ensure_import unpatched_text) <
      String.length (ensure_import patched).
Proof.
  apply (same_second_rerun_overwrites_backup
           (install morning) (disk unpatched_text)
           (snd (locate (install morning) (disk unpatched_text)))
           (snd (main (install morning) (disk unpatched_text)))
           logs_py unpatched_text); by_running.
Defined.

(** *** Stamps of different times *)

Lemma digit_inj (a b : Z) : digit a = digit b -> (a mod 10 = b mod 10)%Z.
Proof.
  unfold digit. intros H. apply (f_equal nat_of_ascii) in H.
  pose proof (Z.mod_pos_bound a 10 eq_refl).
  pose proof (Z.mod_pos_bound b 10 eq_refl).
  rewrite !nat_ascii_embedding in H by lia. lia.
Qed.

Lemma two_digits_inj (n m : Z) :
  (0 <= n <= 99)%Z -> (0 <= m <= 99)%Z ->
  two_digits n = two_digits m -> n = m.
Proof.
  intros Hn Hm H. injection H as H1 H0.
  apply digit_inj in H1, H0. div_lia.
Qed.

Lemma four_digits_inj (n m : Z) :
  (0 <= n <= 9999)%Z -> (0 <= m <= 9999)%Z ->
  four_digits n = four_digits m -> n = m.
Proof.
  intros Hn Hm H. injection H as H3 H2 H1 H0.
  apply digit_inj in H3, H2, H1, H0. div_lia.
Qed.

(** The layout can be read back: it determines the time. *)
Lemma layout_inj (d d' : datetime) :
  valid_datetime d -> valid_datetime d' ->
  YYYYMMDD_HHMMSS d = YYYYMMDD_HHMMSS d' -> d = d'.
Proof.
  intros (Hy & Hm & Hd & HH & HM & HS) (Hy' & Hm' & Hd' & HH' & HM' & HS') E.
  unfold YYYYMMDD_HHMMSS in E.
  assert (Ey : four_digits (year d) = four_digits (year d'))
    by (unfold four_digits in *; simpl in E; congruence).
  assert (Em : two_digits (month d) = two_digits (month d'))
    by (unfold four_digits, two_digits in *; simpl in E; congruence).
  assert (Ed : two_digits (day d) = two_digits (day d'))
    by (unfold four_digits, two_digits in *; simpl in E; congruence).
  assert (EH : two_digits (hour d) = two_digits (hour d'))
    by (unfold four_digits, two_digits in *; simpl in E; congruence).
  assert (EM : two_digits (minute d) = two_digits (minute d'))
    by (unfold four_digits, two_digits in *; simpl in E; congruence).
  assert (ES : two_digits (second d) = two_digits (second d'))
    by (unfold four_digits, two_digits in *; simpl in E; congruence).
  apply four_digits_inj in Ey; [| lia ..].
  apply two_digits_inj in Em, Ed, EH, EM, ES; try lia.
  destruct d, d'; simpl in *. congruence.
Qed.

(** X12. Runs that patch at different valid times write their backups to
    different paths, so neither overwrites the backup of the other. *)
Theorem backups_of_different_times_differ (e e' : env)
    (w w1 w' v v1 v' : world) (t : path) :
  valid_datetime (now e) -> valid_datetime (now e') ->
  now e <> now e' ->
  locate e w = (Done t, w1) -> main e w = (Done tt, w') ->
  locate e' v = (Done t, v1) -> main e' v = (Done tt, v') ->
  exists b b' x y x' y',
    written w' = written w ++ [(b, x); (t, y)] /\
    written v' = written v ++ [(b', x'); (t, y')] /\
    b <> b'.
Proof.
  intros Hv Hv' Hne Hl Hm Hl' Hm'.
  destruct (main_done_inv _ _ _ _ _ Hl Hm) as (o & _ & _ & _ & _ & Hw).
  destruct (main_done_inv _ _ _ _ _ Hl' Hm') as (o' & _ & _ & _ & _ & Hw').
  eexists _, _, _, _, _, _. split; [exact Hw |]. split; [exact Hw' |].
  intros E. apply Hne. unfold joinpath in E.
  apply app_inj_tail in E as [_ E].
  do 2 apply str_app_inv_head in E.
  rewrite !strftime_layout in E by assumption.
  now apply layout_inj.
Qed.

Lemma backups_of_different_times_differ_witness :
  exists b b' x y x' y',
    written (snd (main (install morning) (disk unpatched_text))) =
      written (disk unpatched_text) ++ [(b, x); (logs_py, y)] /\
    written (snd (main (install one_second_later) (disk unpatched_text))) =
      written (disk unpatched_text) ++ [(b', x'); (logs_py, y')] /\
    b <> b'.
Proof.
  apply (backups_of_different_times_differ
           (install morning) (install one_second_later)
           (disk unpatched_text)
           (snd (locate (install morning) (disk unpatched_text)))
           (snd (main (install morning) (disk unpatched_text)))
           (disk unpatched_text)
           (snd (locate (install one_second_later) (disk unpatched_text)))
           (snd (main (install one_second_later) (disk unpatched_text)))
           logs_py).
  - vm_compute. intuition discriminate.
  - vm_compute. intuition discriminate.
  - vm_compute. discriminate.
  - by_running.
  - by_running.
  - by_running.
  - by_running.
Defined.

(** *** What the operator reads *)

Lemma locate_world (e : env) (w w1 : world) (t : path) :
  locate e w = (Done t, w1) ->
  w1 = {| files := files w;
          console := console w ++ ["Target file: " +:+ path_str t];
          written := written w |}.
Proof.
  unfold locate, mbind, script_bind. rewrite path_exists_eq.
  set (primary := logs_py_in (sys_prefix e // "Lib" // "site-packages")).
  destruct (files w !! primary); simpl.
  - intros [= <- <-]. reflexivity.
  - destruct (first_candidate_spec
                (getsitepackages e ++ [getusersitepackages e]) primary w)
      as (t' & -> & _).
    simpl. intros [= <- <-]. reflexivity.
Qed.

Lemma apply_patch_console (e : env) (p : path) (w : world) :
  console (snd (apply_patch e (logs_py_in p) w)) =
  console w ++
  match files w !! logs_py_in p with
  | None =>
      ["Could not find logs.py at the expected location. Please open the file path from the traceback and pass it here."]
  | Some orig =>
      if contains marker orig
      then ["Patch appears to already be applied. No changes made."]
      else if contains old_call orig
      then ["Writing backup to: " +:+ path_str (backup_of e (logs_py_in p));
            "Patched logs.py successfully. Please inspect the backup and the modified file before re-running your command.";
            "If you prefer not to modify site-packages, consider running the adk command with Administrator privileges or enable Windows Developer Mode."]
      else ["Could not find the os.symlink call pattern. Please open the file and apply manually. Exiting."]
  end.
Proof.
  pose proof (with_suffix_logs_py p (now e)) as Hws.
  set (b := backup_of e (logs_py_in p)) in *.
  unfold apply_patch, mbind, script_bind.
  rewrite Hws, path_exists_eq. unfold read_text.
  destruct (files w !! logs_py_in p) as [orig|] eqn:E; simpl.
  - rewrite ?E. destruct (contains marker orig); simpl.
    + reflexivity.
    + rewrite (old_call_after_import orig).
      destruct (contains old_call orig); simpl.
      * rewrite <- !List.app_assoc. reflexivity.
      * reflexivity.
  - reflexivity.
Qed.

(** X13. What a run prints: first the located path, then one line that
    names the check that stopped it, or, for a run that patches, the path
    of the backup it writes followed by the two closing lines. *)
Theorem console_report (e : env) (w w1 : world) (t : path) :
  locate e w = (Done t, w1) ->
  console (snd (main e w)) =
  console w ++ ["Target file: " +:+ path_str t] ++
  match files w !! t with
  | None =>
      ["Could not find logs.py at the expected location. Please open the file path from the traceback and pass it here."]
  | Some orig =>
      if contains marker orig
      then ["Patch appears to already be applied. No changes made."]
      else if contains old_call orig
      then ["Writing backup to: " +:+ path_str (backup_of e t);
            "Patched logs.py successfully. Please inspect the backup and the modified file before re-running your command.";
            "If you prefer not to modify site-packages, consider running the adk command with Administrator privileges or enable Windows Developer Mode."]
      else ["Could not find the os.symlink call pattern. Please open the file and apply manually. Exiting."]
  end.
Proof.
  intros Hl. destruct (locate_inv _ _ _ _ Hl) as (_ & _ & p & ->).
  pose proof (locate_world _ _ _ _ Hl) as Hw1.
  unfold main, mbind, script_bind. rewrite Hl. cbv beta iota zeta.
  rewrite apply_patch_console. subst w1. cbn [files console].
  rewrite <- List.app_assoc. reflexivity.
Qed.

Lemma console_report_witness :
  console (snd (main (install morning) (disk marked_text))) =
  console (disk marked_text) ++ ["Target file: " +:+ path_str logs_py] ++
  match files (disk marked_text) !! logs_py with
  | None =>
      ["Could not find logs.py at the expected location. Please open the file path from the traceback and pass it here."]
  | Some orig =>
      if contains marker orig
      then ["Patch appears to already be applied. No changes made."]
      else if contains old_call orig
      then ["Writing backup to: " +:+
              path_str (backup_of (install morning) logs_py);
            "Patched logs.py successfully. Please inspect the backup and the modified file before re-running your command.";
            "If you prefer not to modify site-packages, consider running the adk command with Administrator privileges or enable Windows Developer Mode."]
      else ["Could not find the os.symlink call pattern. Please open the file and apply manually. Exiting."]
  end.
Proof.
  apply (console_report (install morning) (disk marked_text)
           (snd (locate (install morning) (disk marked_text))) logs_py).
  by_running.
Defined.

(** *** What the backup holds *)

(** X14. The backup of a run that patches holds the text after the import
    step; it is the text the run read exactly when that text already had
    [import shutil] or had no [import os] line. *)
Theorem backup_is_original_iff (e : env) (w w1 w' : world) (t : path)
    (orig : string) :
  locate e w = (Done t, w1) ->
  files w !! t = Some orig ->
  main e w = (Done tt, w') ->
  exists backup saved new,
    written w' = written w ++ [(backup, saved); (t, new)] /\
    files w' !! backup = Some saved /\
    (saved = orig <->
     contains import_shutil orig = true \/
     contains import_os_line orig = false).
Proof.
  intros Hl Hf Hm.
  destruct (main_done_inv _ _ _ _ _ Hl Hm) as (o & Ho & _ & _ & Hfs & Hw).
  rewrite Hf in Ho. injection Ho as <-.
  destruct (locate_inv _ _ _ _ Hl) as (_ & _ & p0 & Hp0).
  assert (Hbt : backup_of e t <> t).
  { rewrite Hp0. apply backup_not_logs_py. }
  eexists _, _, _. split; [exact Hw |]. split.
  - rewrite Hfs, lookup_insert_ne by congruence. apply lookup_insert_eq.
  - apply ensure_import_fixed.
Qed.

Lemma backup_is_original_iff_witness :
  exists backup saved new,
    written (snd (main (install morning) (disk both_imports_text))) =
      written (disk both_imports_text) ++
      [(backup, saved); (logs_py, new)] /\
    files (snd (main (install morning) (disk both_imports_text))) !! backup
      = Some saved /\
    (saved = both_imports_text <->
     contains import_shutil both_imports_text = true \/
     contains import_os_line both_imports_text = false).
Proof.
  apply (backup_is_original_iff
           (install morning) (disk both_imports_text)
           (snd (locate (install morning) (disk both_imports_text)))
           (snd (main (install morning) (disk both_imports_text)))
           logs_py both_imports_text); by_running.
Defined.

End Behaviour.
